(** * ScalpyrPro: a shallow embedding of [src/scalpyr/scalpyrpro.py]

    The client subclasses the transport class [Scalpyr] of
    [src.scalpyr.scalpyr].  The methods it calls there ([_send_request],
    [get_events], [get_performers], [get_venues]) talk to the server and
    are an oracle of the model: a function from the calls made so far and
    the present call to the outcome of that call.  The only state the
    client itself threads is the log of those calls and what it prints.

    Python and pandas values are dynamically typed; they are embedded in one
    type [pyval], and every operation of the client checks the shape of its
    argument the way the interpreter does, raising the matching exception. *)

From Stdlib Require Import List ZArith Lia Bool Ascii String.
From Stdlib Require Import DecimalString DecimalZ.
Import ListNotations.
Set Warnings "-register-all".
Open Scope string_scope.
Open Scope Z_scope.
Open Scope list_scope.

(** ** Values *)

(** JSON values as [json.loads] yields them, the missing-value marker that
    pandas writes into holes, and data frames.  Numbers with a fractional
    part are not represented: the client computes with counts and ids only.
    A frame has column labels, row labels and one list of cells per row. *)
Record frame (A : Type) := mkFrame {
  df_columns : list string;
  df_index : list Z;
  df_data : list (list A)
}.
Arguments mkFrame {A} _ _ _.
Arguments df_columns {A} _.
Arguments df_index {A} _.
Arguments df_data {A} _.

Inductive pyval : Type :=
| PNone
| PNaN
| PBool (b : bool)
| PInt (z : Z)
| PStr (s : string)
| PList (l : list pyval)
| PDict (d : list (string * pyval))
| PFrame (df : frame pyval).

Definition DataFrame := frame pyval.

(** A [dict] with string keys, in insertion order. *)
Definition dict := list (string * pyval).

(** [pd.Series]: row labels and values. *)
Record Series := mkSeries { s_index : list Z; s_values : list pyval }.

(** [IdList = typing.Union[pd.Series, typing.List[str]]] *)
Inductive IdList :=
| IdSeries (s : Series)
| IdStrings (l : list string).

(** [class SeatGeekDataStructure(pydantic.BaseModel)] *)
Record SeatGeekDataStructure := mkSG {
  events : list string;
  performers : list string;
  stats : list string;
  venues : list string
}.

(** ** Outcomes *)

(** The exceptions the client can meet.  [ApiException] is the client's own
    and carries the response it was raised with; [OtherException] stands
    for any class the client neither raises nor handles (what the transport
    raises when the network fails, say).  [OutsideModel] is not a Python
    exception: it marks a run that leaves the part of pandas that is
    modelled here (a frame subscripted like a dict, a frame built from
    something that is not a list of records); no handler catches it. *)
Inductive exn :=
| ApiException (response : pyval)
| AttributeError
| KeyError
| TypeError
| ValueError
| ZeroDivisionError
| InvalidIndexError
| OtherException (class : string)
| OutsideModel.

Inductive res (A : Type) :=
| Ok (a : A)
| Raise (e : exn).
Arguments Ok {A} a.
Arguments Raise {A} e.

(** The calls the client makes on its base class. *)
Inductive base_call :=
| Super_send_request (req_type : string) (req_args req_id : pyval)
| Get_events (req_args : pyval)
| Get_performers (req_args : pyval)
| Get_venues (req_args : pyval).

(** The calls made on the base class so far, and what was printed, one
    string for each call of [print]. *)
Record world := mkWorld { calls : list base_call; stdout : list string }.

Definition M (A : Type) := world -> res A * world.

Definition ret {A} (a : A) : M A := fun w => (Ok a, w).
Definition raise {A} (e : exn) : M A := fun w => (Raise e, w).
Definition bind {A B} (c : M A) (k : A -> M B) : M B :=
  fun w => match c w with
           | (Ok a, w') => k a w'
           | (Raise e, w') => (Raise e, w')
           end.
Definition lift {A} (r : res A) : M A := fun w => (r, w).

(** [try: c  except ...: h]: the handler [h] says which exceptions it
    catches by answering [Some]. *)
Definition try_except {A} (c : M A) (h : exn -> option (M A)) : M A :=
  fun w => match c w with
           | (Ok a, w') => (Ok a, w')
           | (Raise e, w') =>
               match h e with
               | Some k => k w'
               | None => (Raise e, w')
               end
           end.

Definition print (s : string) : M unit :=
  fun w => (Ok tt, mkWorld (calls w) (stdout w ++ [s])).

Declare Scope py_scope.
Delimit Scope py_scope with py.
Notation "x <- c ;; k" := (bind c (fun x => k))
  (at level 61, c at next level, right associativity) : py_scope.
Notation "c ;;; k" := (bind c (fun _ => k))
  (at level 61, right associativity) : py_scope.
Open Scope py_scope.

(** ** Built-in operations *)

Definition is_None (v : pyval) : bool :=
  match v with PNone => true | _ => false end.

Fixpoint dict_get (d : dict) (k : string) : option pyval :=
  match d with
  | [] => None
  | (k', v) :: d' => if String.eqb k' k then Some v else dict_get d' k
  end.

(** [d[k] = v]: an existing key keeps its place, a new one goes last. *)
Fixpoint dict_set (d : dict) (k : string) (v : pyval) : dict :=
  match d with
  | [] => [(k, v)]
  | (k', v') :: d' =>
      if String.eqb k' k then (k', v) :: d' else (k', v') :: dict_set d' k v
  end.

Definition dict_keys (d : dict) : list string := map fst d.

Definition mem (k : string) (l : list string) : bool :=
  existsb (String.eqb k) l.

(** [k not in response.keys()] *)
Definition not_in_keys (response : pyval) (k : string) : res bool :=
  match response with
  | PDict d => Ok (negb (mem k (dict_keys d)))
  | PFrame _ => Raise OutsideModel
  | _ => Raise AttributeError
  end.

(** [v[k]] for a string [k]. *)
Definition getitem (v : pyval) (k : string) : res pyval :=
  match v with
  | PDict d => match dict_get d k with
               | Some x => Ok x
               | None => Raise KeyError
               end
  | PFrame df => if mem k (df_columns df) then Raise OutsideModel
                 else Raise KeyError
  | _ => Raise TypeError
  end.

(** [v[k] = x] for a string [k]; the updated object is the result. *)
Definition setitem (v : pyval) (k : string) (x : pyval) : res pyval :=
  match v with
  | PDict d => Ok (PDict (dict_set d k x))
  | PFrame _ => Raise OutsideModel
  | _ => Raise TypeError
  end.

(** One value of [column.astype(str)], for the values a column of ids
    holds: an integer is written in decimal, a string is itself.  How a
    missing value is written depends on the version of pandas, and a
    missing value beside integers makes the column one of floats; neither
    is followed. *)
Definition py_str (v : pyval) : res string :=
  match v with
  | PBool true => Ok "True"
  | PBool false => Ok "False"
  | PInt z => Ok (NilZero.string_of_int (Z.to_int z))
  | PStr s => Ok s
  | _ => Raise OutsideModel
  end.

Fixpoint map_res {A B} (f : A -> res B) (l : list A) : res (list B) :=
  match l with
  | [] => Ok []
  | a :: l' =>
      match f a with
      | Ok b => match map_res f l' with
                | Ok bs => Ok (b :: bs)
                | Raise e => Raise e
                end
      | Raise e => Raise e
      end
  end.

(** [",".join(...)] *)
Definition join (sep : string) (l : list string) : string :=
  String.concat sep l.

(** The two branches on [isinstance(ids, pd.Series)]. *)
Definition join_ids (ids : IdList) : res string :=
  match ids with
  | IdSeries s => match map_res py_str (s_values s) with
                  | Ok l => Ok (join "," l)
                  | Raise e => Raise e
                  end
  | IdStrings l => Ok (join "," l)
  end.

(** Numbers as [/] and [math.ceil] see them: [bool] is an [int]. *)
Inductive number := Fin (z : Z) | NaN.

Definition as_number (v : pyval) : res number :=
  match v with
  | PInt z => Ok (Fin z)
  | PBool b => Ok (Fin (if b then 1 else 0))
  | PNaN => Ok NaN
  | PFrame _ => Raise OutsideModel
  | _ => Raise TypeError
  end.

(** The ceiling of the quotient [a / b], for [b <> 0]. *)
Definition ceil_div (a b : Z) : Z := - ((- a) / b).

(** The integers a float holds exactly: those below [2^53] in magnitude. *)
Definition float_exact_bound : Z := 9007199254740992.

Definition float_exact (z : Z) : bool := Z.abs z <? float_exact_bound.

(** [math.ceil(a / b)].  The quotient is a float in Python.  For two
    integers that a float holds exactly, the quotient is rounded to the
    nearest float and its ceiling is the exact one; beyond that the
    rounding can lose a page or overflow, which is not followed.  Division
    by zero is raised before any rounding. *)
Definition math_ceil_div (a b : pyval) : res Z :=
  match as_number a with
  | Raise e => Raise e
  | Ok x =>
      match as_number b with
      | Raise e => Raise e
      | Ok (Fin 0) => Raise ZeroDivisionError
      | Ok NaN => Raise ValueError
      | Ok (Fin q) =>
          match x with
          | NaN => Raise ValueError
          | Fin p => if float_exact p && float_exact q
                     then Ok (ceil_div p q)
                     else Raise OutsideModel
          end
      end
  end.

(** ** The part of pandas the client uses *)

(** Labels in order of first appearance. *)
Fixpoint uniq_from (seen l : list string) : list string :=
  match l with
  | [] => []
  | x :: l' => if mem x seen then uniq_from seen l'
               else x :: uniq_from (x :: seen) l'
  end.

Definition uniq (l : list string) : list string := uniq_from [] l.

(** A list all of whose entries are dicts, as the list of those dicts. *)
Fixpoint as_records (l : list pyval) : option (list dict) :=
  match l with
  | [] => Some []
  | PDict d :: l' => match as_records l' with
                     | Some ds => Some (d :: ds)
                     | None => None
                     end
  | _ => None
  end.

(** The value of record [r] under column [c]; a record without the key
    leaves a hole.  This is the value as the record has it: pandas goes on
    to choose one type for each column (a null beside numbers becomes NaN,
    integers beside a hole become floats), which is not followed, so what
    is proved of a table built from records is about its labels and its
    shape, not about the values in its cells. *)
Definition cell (r : dict) (c : string) : pyval :=
  match dict_get r c with
  | Some v => v
  | None => PNaN
  end.

(** [RangeIndex(n)] *)
Definition range (n : nat) : list Z := map Z.of_nat (seq 0 n).

(** The cells of [row] that stand under label [c]. *)
Definition cells_at (c : string) (columns : list string) (row : list pyval)
  : list pyval :=
  map snd (filter (fun p => String.eqb (fst p) c) (combine columns row)).

(** [df[columns]] for a list of labels: the columns so labelled, in the
    order asked for; a label the frame does not have is a [KeyError]. *)
Definition getitem_columns (df : DataFrame) (columns : list string)
  : res DataFrame :=
  if forallb (fun c => mem c (df_columns df)) columns
  then Ok (mkFrame
             (flat_map (fun c => filter (String.eqb c) (df_columns df)) columns)
             (df_index df)
             (map (fun row => flat_map (fun c => cells_at c (df_columns df) row)
                                columns)
                (df_data df)))
  else Raise KeyError.

(** [v.name] for one of the column names the client reads as attributes
    ([id], [name], [num_upcoming_events]); neither the built-in types nor
    [DataFrame] have attributes of these names, so only a column answers.
    A label borne by several columns answers with a frame, which is not
    followed. *)
Definition getattr_column (v : pyval) (name : string) : res Series :=
  match v with
  | PFrame df =>
      match filter (String.eqb name) (df_columns df) with
      | [] => Raise AttributeError
      | [_] => Ok (mkSeries (df_index df)
                     (map (fun row => hd PNaN (cells_at name (df_columns df) row))
                        (df_data df)))
      | _ => Raise OutsideModel
      end
  | _ => Raise AttributeError
  end.

(** One cell of [series > 0]: missing values compare false, numbers
    compare, anything else is a [TypeError]. *)
Definition cell_gt_zero (v : pyval) : res bool :=
  match v with
  | PInt z => Ok (0 <? z)
  | PBool b => Ok b
  | PNone | PNaN => Ok false
  | PFrame _ => Raise OutsideModel
  | _ => Raise TypeError
  end.

(** [series > 0] *)
Definition gt_zero (s : Series) : res (list bool) :=
  map_res cell_gt_zero (s_values s).

(** The entries of [l] that a boolean mask selects. *)
Definition keep {A} (mask : list bool) (l : list A) : list A :=
  map snd (filter fst (combine mask l)).

(** [df.loc[mask].copy()] *)
Definition loc (df : DataFrame) (mask : list bool) : DataFrame :=
  mkFrame (df_columns df) (keep mask (df_index df)) (keep mask (df_data df)).

(** [pd.DataFrame({a: sa, b: sb})] for two series over the same rows. *)
Definition frame_of_series (a : string) (sa : Series) (b : string) (sb : Series)
  : res DataFrame :=
  if list_eq_dec Z.eq_dec (s_index sa) (s_index sb)
  then Ok (mkFrame [a; b] (s_index sa)
             (map (fun p => [fst p; snd p])
                (combine (s_values sa) (s_values sb))))
  else Raise OutsideModel.

(** [df[name] = v] for a scalar [v]: every row gets [v] in that column,
    which is appended when the frame does not have it. *)
Definition set_column (df : DataFrame) (name : string) (v : pyval) : DataFrame :=
  if mem name (df_columns df)
  then mkFrame (df_columns df) (df_index df)
         (map (fun row => map (fun p => if String.eqb (fst p) name then v
                                        else snd p)
                            (combine (df_columns df) row))
            (df_data df))
  else mkFrame (df_columns df ++ [name]) (df_index df)
         (map (fun row => row ++ [v]) (df_data df)).

(** A list all of whose entries are frames, as the list of those frames. *)
Fixpoint as_frames (l : list pyval) : option (list DataFrame) :=
  match l with
  | [] => Some []
  | PFrame df :: l' => match as_frames l' with
                       | Some dfs => Some (df :: dfs)
                       | None => None
                       end
  | _ => None
  end.

(** Whether all the frames have the column list of the first. *)
Definition same_columns (dfs : list DataFrame) : bool :=
  match dfs with
  | [] => true
  | df :: dfs' =>
      forallb (fun df' => if list_eq_dec string_dec (df_columns df')
                                 (df_columns df) then true else false) dfs'
  end.

(** Whether no label occurs twice. *)
Definition unique_labels (l : list string) : bool :=
  Nat.eqb (List.length (uniq l)) (List.length l).

(** The functions the client calls on the module [pd]. *)
Module pd.

(** [pd.DataFrame.from_dict(data)] with the default orientation, that is
    [pd.DataFrame(data)].  A list of records gives one row per record and
    one column per key, keys in order of first appearance. *)
Definition from_dict (data : pyval) : res DataFrame :=
  match data with
  | PList l =>
      match as_records l with
      | Some rs =>
          let columns := uniq (flat_map dict_keys rs) in
          Ok (mkFrame columns (range (List.length rs))
                (map (fun r => map (cell r) columns) rs))
      | None => Raise OutsideModel
      end
  | PFrame df => Ok df
  | PNone => Ok (mkFrame [] [] [])
  | PDict _ => Raise OutsideModel
  | _ => Raise ValueError
  end.

(** [pd.concat(objs, ignore_index=...)] along the rows.  [None] entries are
    dropped; frames with one and the same column list are stacked as they
    are; otherwise the columns are the union in order of first appearance
    and the holes are filled, which pandas refuses when a frame repeats a
    label. *)
Definition concat (objs : list pyval) (ignore_index : bool) : res DataFrame :=
  match objs with
  | [] => Raise ValueError
  | _ =>
      match filter (fun o => negb (is_None o)) objs with
      | [] => Raise ValueError
      | objs' =>
          match as_frames objs' with
          | None => Raise TypeError
          | Some dfs =>
              let index :=
                if ignore_index
                then range (List.length (flat_map df_data dfs))
                else flat_map df_index dfs in
              if same_columns dfs
              then Ok (mkFrame (df_columns (hd (mkFrame [] [] []) dfs)) index
                         (flat_map df_data dfs))
              else if forallb (fun df => unique_labels (df_columns df)) dfs
              then
                let columns := uniq (flat_map df_columns dfs) in
                Ok (mkFrame columns index
                      (flat_map
                         (fun df =>
                            map (fun row =>
                                   map (fun c => hd PNaN
                                                   (cells_at c (df_columns df) row))
                                     columns)
                              (df_data df))
                         dfs))
              else Raise InvalidIndexError
          end
      end
  end.

End pd.

(** ** The client *)

(** The schema [ScalpyrPro.__init__] builds when it is given none. *)
Definition default_sg_data_structure : SeatGeekDataStructure := {|
  events := ["type"; "id"; "datetime_utc"; "venue"; "performers";
             "short_title"; "stats"; "url"; "score"; "announce_date";
             "status"; "access_method"; "visible_at"];
  performers := ["type"; "name"; "id"; "has_upcoming_events"; "primary";
                 "url"; "score"; "slug"; "num_upcoming_events"];
  stats := ["listing_count"; "average_price"; "median_price";
            "lowest_price"; "highest_price"];
  venues := ["state"; "postal_code"; "name"; "timezone"; "url"; "score";
             "location"; "country"; "num_upcoming_events"; "city"; "slug";
             "id"; "access_method"; "metro_code"; "capacity"]
|}.

(** [ScalpyrPro.__init__], as far as the schema goes. *)
Definition init (sg_data_structure : option SeatGeekDataStructure)
  : SeatGeekDataStructure :=
  match sg_data_structure with
  | Some sg => sg
  | None => default_sg_data_structure
  end.

(** [getattr(self.sg_data_structure, req_type)]: the four fields of the
    model.  A name that is none of them is taken to be no attribute at all,
    as the keys of a response are (a kind such as [taxonomies]); the names
    of what the model class itself carries ([copy], [__module__]) are not
    followed, and what is proved through this lookup is stated for the
    four fields or for such a key. *)
Definition getattr_sg (sg : SeatGeekDataStructure) (req_type : string)
  : res (list string) :=
  if String.eqb req_type "events" then Ok (events sg)
  else if String.eqb req_type "performers" then Ok (performers sg)
  else if String.eqb req_type "stats" then Ok (stats sg)
  else if String.eqb req_type "venues" then Ok (venues sg)
  else Raise AttributeError.

Definition newline : string := String (ascii_of_nat 10) EmptyString.

Section ScalpyrPro.

(** The base class: what a call answers after the calls made so far. *)
Variable Scalpyr : list base_call -> base_call -> res pyval.

(** [self.sg_data_structure] *)
Variable sg_data_structure : SeatGeekDataStructure.

Definition call (c : base_call) : M pyval :=
  fun w => (Scalpyr (calls w) c, mkWorld (calls w ++ [c]) (stdout w)).

(** [ScalpyrPro._send_request] *)
Definition _send_request (req_type : string) (req_args req_id : pyval)
  : M pyval :=
  response <- call (Super_send_request req_type req_args req_id);;
  absent <- lift (not_in_keys response req_type);;
  if absent : bool then raise (ApiException response)
  else
    columns <- try_except (lift (getattr_sg sg_data_structure req_type))
                 (fun e => match e with
                           | KeyError => Some (raise (ApiException response))
                           | _ => None
                           end);;
    records <- lift (getitem response req_type);;
    df <- lift (pd.from_dict records);;
    df <- lift (getitem_columns df columns);;
    lift (setitem response req_type (PFrame df)).

(** The [for venue in venues] loop of [get_venue_ids]. *)
Fixpoint venues_loop (venues : list string)
         (all_venue_data : list pyval) (venue_search_failed : list string)
  : M (list pyval * list string) :=
  match venues with
  | [] => ret (all_venue_data, venue_search_failed)
  | venue :: rest =>
      found <- try_except
                 (venue_data <- call (Get_venues (PDict [("name", PStr venue)]));;
                  ret (Some venue_data))
                 (fun e => match e with
                           | ApiException _ => Some (ret None)
                           | _ => None
                           end);;
      match found with
      | None => venues_loop rest all_venue_data (venue_search_failed ++ [venue])
      | Some venue_data =>
          ids <- lift (getattr_column venue_data "id");;
          if (0 <? List.length (s_values ids))%nat
          then
            upcoming <- lift (getattr_column venue_data "num_upcoming_events");;
            mask <- lift (gt_zero upcoming);;
            match venue_data with
            | PFrame df =>
                let venue_data := PFrame (loc df mask) in
                name <- lift (getattr_column venue_data "name");;
                id <- lift (getattr_column venue_data "id");;
                venue_data_df <- lift (frame_of_series "venue" name
                                         "venue_id" id);;
                let venue_data_df :=
                  set_column venue_data_df "searched_venue" (PStr venue) in
                venues_loop rest (all_venue_data ++ [PFrame venue_data_df])
                  venue_search_failed
            | _ => raise AttributeError
            end
          else venues_loop rest all_venue_data venue_search_failed
      end
  end.

(** [ScalpyrPro.get_venue_ids] *)
Definition get_venue_ids (venues : list string) : M pyval :=
  r <- venues_loop venues [] [];;
  let all_venue_data := fst r in
  let venue_search_failed := snd r in
  (if (0 <? List.length venue_search_failed)%nat
   then print ("Could not find venues: " ++ newline
                 ++ join newline venue_search_failed)%string
   else ret tt);;;
  df <- lift (pd.concat all_venue_data true);;
  ret (PFrame df).

(** [ScalpyrPro.get_by_id] *)
Definition get_by_id (req_type : string) (ids : IdList) : M pyval :=
  ids <- lift (join_ids ids);;
  let lookup := [("events", Get_events);
                 ("performers", Get_performers);
                 ("venues", Get_venues)] in
  match find (fun p => String.eqb (fst p) req_type) lookup with
  | Some p => call (snd p (PDict [("id", PStr ids)]))
  | None => raise KeyError
  end.

(** [ScalpyrPro._get_events_by] *)
Definition _get_events_by (lookup_field : string)
           (ids per_page page_num event_type : pyval) : M pyval :=
  let req := if is_None event_type then [] else [("type", event_type)] in
  let req := dict_set req lookup_field ids in
  let req := dict_set req "per_page" per_page in
  let req := dict_set req "page" page_num in
  call (Get_events (PDict req)).

(** The [while page_num <= total_pages] loop of [get_events_by].  [fuel]
    bounds the iterations; [total_pages + 1 - page_num] of them suffice. *)
Fixpoint pages_loop (fuel : nat) (lookup_field : string)
         (ids per_page event_type : pyval) (total_pages page_num : Z)
         (resp : pyval) (events_tables : list pyval)
  : M (pyval * list pyval) :=
  match fuel with
  | O => ret (resp, events_tables)
  | S fuel' =>
      if page_num <=? total_pages
      then
        resp <- _get_events_by lookup_field ids per_page (PInt page_num)
                  event_type;;
        table <- lift (getitem resp "events");;
        pages_loop fuel' lookup_field ids per_page event_type total_pages
          (page_num + 1) resp (events_tables ++ [table])
      else ret (resp, events_tables)
  end.

(** [ScalpyrPro.get_events_by] *)
Definition get_events_by (req_type : string) (ids : IdList)
           (per_page event_type : pyval) : M pyval :=
  ids <- lift (join_ids ids);;
  let lookup_field :=
    if String.eqb req_type "events" then "id"
    else (req_type ++ ".id")%string in
  resp <- _get_events_by lookup_field (PStr ids) per_page (PInt 1) event_type;;
  meta <- lift (getitem resp "meta");;
  total_records <- lift (getitem meta "total");;
  meta <- lift (getitem resp "meta");;
  per_page <- lift (getitem meta "per_page");;
  total_pages <- lift (math_ceil_div total_records per_page);;
  table <- lift (getitem resp "events");;
  r <- pages_loop (Z.to_nat (total_pages + 1 - 2)) lookup_field (PStr ids)
         per_page event_type total_pages 2 resp [table];;
  df <- lift (pd.concat (snd r) false);;
  lift (setitem (fst r) "events" (PFrame df)).

End ScalpyrPro.

(** The default page size of [get_events_by]. *)
Definition default_per_page : pyval := PInt 1000.

(** ** The data model of the specification *)

(** The resource kinds and the names the schema knows them by. *)
Inductive ResourceKind := Events | Performers | Stats | Venues.

Definition kind_name (k : ResourceKind) : string :=
  match k with
  | Events => "events"
  | Performers => "performers"
  | Stats => "stats"
  | Venues => "venues"
  end.

(** SchemaConfig: the configured column list of a kind. *)
Definition configured (sg : SeatGeekDataStructure) (k : ResourceKind)
  : list string :=
  match k with
  | Events => events sg
  | Performers => performers sg
  | Stats => stats sg
  | Venues => venues sg
  end.

(** The projection of one raw record onto a column list. *)
Definition project_record (columns : list string) (r : dict) : list pyval :=
  map (cell r) columns.

(** ** What the runs are measured against *)

(** The base-class method [get_by_id] picks for a kind. *)
Definition lookup_methods : list (string * (pyval -> base_call)) :=
  [("events", Get_events); ("performers", Get_performers);
   ("venues", Get_venues)].

(** [str] is the decimal numeral of [z] as Python writes an int: the
    digits without leading zeros, after a minus sign for a negative
    number. *)
Definition decimal_of (z : Z) (str : string) : Prop :=
  exists d : Decimal.int,
    Decimal.norm d = d
    /\ Z.of_int d = z
    /\ NilZero.string_of_int d = str.

(** How a value of a column of ids is written into the filter: a string
    as it is, an integer in decimal. *)
Definition written (v : pyval) (str : string) : Prop :=
  match v with
  | PStr x => str = x
  | PInt z => decimal_of z str
  | _ => False
  end.

(** The values a column of ids holds. *)
Definition is_id (v : pyval) : Prop :=
  match v with
  | PStr _ | PInt _ => True
  | _ => False
  end.

(** An id list a filter can be made of: any list of strings, and a column
    of ids. *)
Definition joinable (ids : IdList) : Prop :=
  match ids with
  | IdStrings _ => True
  | IdSeries column => Forall is_id (s_values column)
  end.

(** [s] is the ids of [ids], each as it is written, with a comma between
    one and the next. *)
Definition comma_joined (ids : IdList) (s : string) : Prop :=
  exists strs,
    s = String.concat "," strs
    /\ match ids with
       | IdStrings l => strs = l
       | IdSeries column => Forall2 written (s_values column) strs
       end.

(** The three columns of the resolver's answer. *)
Definition venue_id_columns : list string :=
  ["venue"; "venue_id"; "searched_venue"].

(** The cell of a row under a column of the frame it belongs to. *)
Definition column (df : DataFrame) (name : string) (row : list pyval) : pyval :=
  hd PNaN (cells_at name (df_columns df) row).

(** A venue has upcoming events when its count is positive. *)
Definition has_upcoming (df : DataFrame) (row : list pyval) : bool :=
  match column df "num_upcoming_events" row with
  | PInt z => 0 <? z
  | _ => false
  end.

Definition is_count (v : pyval) : Prop :=
  match v with
  | PInt _ | PNone | PNaN => True
  | _ => False
  end.

(** A table of venues: one column each of ids, names and counts, the
    counts being integers or missing. *)
Definition venue_table (df : DataFrame) : Prop :=
  filter (String.eqb "id") (df_columns df) = ["id"]
  /\ filter (String.eqb "name") (df_columns df) = ["name"]
  /\ filter (String.eqb "num_upcoming_events") (df_columns df)
     = ["num_upcoming_events"]
  /\ Forall (fun row => is_count (column df "num_upcoming_events" row))
       (df_data df).

(** The rows a found name contributes: one per venue with upcoming
    events, holding the venue's name, its id and the name searched for. *)
Definition venue_rows (searched : string) (df : DataFrame)
  : list (list pyval) :=
  map (fun row => [column df "name" row; column df "id" row; PStr searched])
    (filter (has_upcoming df) (df_data df)).

Definition venue_frame (searched : string) (df : DataFrame) : DataFrame :=
  mkFrame venue_id_columns
    (keep (map (has_upcoming df) (df_data df)) (df_index df))
    (venue_rows searched df).

(** What a search contributes to [all_venue_data]: nothing when it found
    no venue at all, else one frame. *)
Definition contribution (searched : string) (df : DataFrame) : list DataFrame :=
  match df_data df with
  | [] => []
  | _ => [venue_frame searched df]
  end.

Definition venue_search (venue : string) : base_call :=
  Get_venues (PDict [("name", PStr venue)]).

(** A search the resolver can go on from: it raised [ApiException], or it
    answered with a table of venues. *)
Definition digestible (outcome : res pyval) : Prop :=
  (exists response, outcome = Raise (ApiException response))
  \/ (exists df, outcome = Ok (PFrame df) /\ venue_table df).

Definition contribution_of (found : string * res pyval) : list DataFrame :=
  match snd found with
  | Ok (PFrame df) => contribution (fst found) df
  | _ => []
  end.

Definition rows_of (found : string * res pyval) : list (list pyval) :=
  match snd found with
  | Ok (PFrame df) => venue_rows (fst found) df
  | _ => []
  end.

Definition failed_of (found : string * res pyval) : list string :=
  match snd found with
  | Raise (ApiException _) => [fst found]
  | _ => []
  end.

(** The diagnostic [get_venue_ids] prints for a list of failed names. *)
Definition diagnostic (failed : list string) : list string :=
  match failed with
  | [] => []
  | _ => [("Could not find venues: " ++ newline
             ++ String.concat newline failed)%string]
  end.

(** The page numbers [page_num], [page_num + 1], ... , [n] of them. *)
Definition pages_from (page_num : Z) (n : nat) : list Z :=
  map (fun i => page_num + Z.of_nat i) (seq 0 n).

(** The request [_get_events_by] sends for a page. *)
Definition page_request (lookup_field : string) (ids per_page event_type : pyval)
           (page_num : Z) : base_call :=
  Get_events
    (PDict
       (dict_set
          (dict_set
             (dict_set (if is_None event_type then []
                        else [("type", event_type)])
                lookup_field ids)
             "per_page" per_page)
          "page" (PInt page_num))).

(** The filter key [get_events_by] looks a kind up by. *)
Definition lookup_field_of (req_type : string) : string :=
  if String.eqb req_type "events" then "id" else (req_type ++ ".id")%string.

(** What a request asks for under a key of its filter. *)
Definition asked (key : string) (c : base_call) : option pyval :=
  match c with
  | Get_events (PDict req) => dict_get req key
  | _ => None
  end.

Section Runs.

(** The base class, as in the client. *)
Variable Scalpyr : list base_call -> base_call -> res pyval.

(** The searches of a run over [venues], each with its outcome: every
    search sees the calls made before it. *)
Fixpoint searches (log : list base_call) (venues : list string)
  : list (string * res pyval) :=
  match venues with
  | [] => []
  | venue :: rest =>
      (venue, Scalpyr log (venue_search venue))
        :: searches (log ++ [venue_search venue]) rest
  end.

(** The answers to a sequence of requests, each made after the ones
    before it. *)
Fixpoint answers (log : list base_call) (requests : list base_call)
  : list (res pyval) :=
  match requests with
  | [] => []
  | c :: cs => Scalpyr log c :: answers (log ++ [c]) cs
  end.

End Runs.

(** ** Sample servers *)

(** A transport that answers every request with two performer records
    carrying more fields than the default schema keeps. *)
Definition performers_transport : list base_call -> base_call -> res pyval :=
  fun _ _ =>
    Ok (PDict
          [("performers",
            PList
              [PDict [("id", PInt 7); ("name", PStr "Alpha"); ("type", PStr "band");
                      ("image", PNone); ("has_upcoming_events", PBool true);
                      ("primary", PBool true); ("url", PStr "u7");
                      ("score", PInt 1); ("slug", PStr "alpha");
                      ("num_upcoming_events", PInt 4); ("popularity", PInt 0)];
               PDict [("id", PInt 9); ("name", PStr "Beta")]]);
           ("meta", PDict [("total", PInt 2); ("per_page", PInt 10);
                           ("page", PInt 1)])]).

(** A transport that answers with an error payload. *)
Definition error_transport : list base_call -> base_call -> res pyval :=
  fun _ _ => Ok (PDict [("error", PStr "bad request")]).

(** A transport that answers a request for taxonomies, a kind the API
    serves and the schema does not list. *)
Definition taxonomies_transport : list base_call -> base_call -> res pyval :=
  fun _ _ =>
    Ok (PDict [("taxonomies", PList [PDict [("id", PInt 1000000);
                                            ("name", PStr "sports")]]);
               ("meta", PDict [("total", PInt 1); ("per_page", PInt 10);
                               ("page", PInt 1)])]).

(** A venue search that knows one name: two venues bear it, one of them
    without upcoming events; any other name raises [ApiException]. *)
Definition garden_search : list base_call -> base_call -> res pyval :=
  fun _ c =>
    match c with
    | Get_venues (PDict [(_, PStr "Madison Square Garden")]) =>
        Ok (PFrame
              (mkFrame ["name"; "city"; "num_upcoming_events"; "id"]
                 [0; 1]
                 [[PStr "Madison Square Garden"; PStr "New York"; PInt 212;
                   PInt 10];
                  [PStr "Madison Square Garden"; PStr "Madison"; PInt 0;
                   PInt 77]]))
    | _ => Raise (ApiException (PDict [("status", PInt 404)]))
    end.

(** A venue search that finds one venue, without upcoming events, under
    every name. *)
Definition quiet_search : list base_call -> base_call -> res pyval :=
  fun _ _ =>
    Ok (PFrame (mkFrame ["id"; "name"; "num_upcoming_events"] [0]
                  [[PInt 3; PStr "Old Hall"; PInt 0]])).

(** A server with 250 events that serves at most 100 a page. *)
Definition page_meta (k : Z) : dict :=
  [("total", PInt 250); ("per_page", PInt 100); ("page", PInt k)].

Definition page_events (k : Z) : DataFrame :=
  mkFrame ["id"; "type"] [0; 1]
    [[PInt (2 * k); PStr "concert"]; [PInt (2 * k + 1); PStr "nba"]].

Definition page_response (k : Z) : dict :=
  [("events", PFrame (page_events k)); ("meta", PDict (page_meta k))].

Definition paged_events : list base_call -> base_call -> res pyval :=
  fun _ c =>
    match asked "page" c with
    | Some (PInt k) => Ok (PDict (page_response k))
    | _ => Raise ValueError
    end.

(** A server without events for the filter. *)
Definition no_events : list base_call -> base_call -> res pyval :=
  fun _ _ =>
    Ok (PDict [("events", PFrame (mkFrame ["id"; "type"] [] []));
               ("meta", PDict [("total", PInt 0); ("per_page", PInt 100);
                               ("page", PInt 1)])]).

(** ** More sample servers *)

(** A transport whose answer lists no performer. *)
Definition empty_transport : list base_call -> base_call -> res pyval :=
  fun _ _ =>
    Ok (PDict [("performers", PList []);
               ("meta", PDict [("total", PInt 0); ("per_page", PInt 10);
                               ("page", PInt 1)])]).

(** The server with 250 events, out of reach after the first page. *)
Definition flaky_events : list base_call -> base_call -> res pyval :=
  fun log c =>
    match log with
    | [] => paged_events log c
    | _ => Raise (OtherException "HTTPError")
    end.

(** A server that reports a page size of zero. *)
Definition zero_per_page : list base_call -> base_call -> res pyval :=
  fun _ _ =>
    Ok (PDict [("events", PFrame (mkFrame ["id"; "type"] [] []));
               ("meta", PDict [("total", PInt 5); ("per_page", PInt 0);
                               ("page", PInt 1)])]).

(** A server whose answers carry no metadata. *)
Definition no_meta : list base_call -> base_call -> res pyval :=
  fun _ _ => Ok (PDict [("events", PFrame (page_events 1))]).

(** A server with two events, all on the first page. *)
Definition short_events : list base_call -> base_call -> res pyval :=
  fun _ _ =>
    Ok (PDict [("events", PFrame (page_events 1));
               ("meta", PDict [("total", PInt 2); ("per_page", PInt 100);
                               ("page", PInt 1)])]).

(** A venue search that raises [ApiException] at first and loses the
    connection afterwards. *)
Definition moody_search : list base_call -> base_call -> res pyval :=
  fun log _ =>
    match log with
    | [] => Raise (ApiException (PDict [("status", PInt 404)]))
    | _ => Raise (OtherException "URLError")
    end.

(** A venue search that answers every name with a table without rows. *)
Definition blank_search : list base_call -> base_call -> res pyval :=
  fun _ _ => Ok (PFrame (mkFrame ["name"; "id"] [] [])).

(** Exceptions other than [ApiException]. *)
Definition not_api_exception (e : exn) : Prop :=
  match e with
  | ApiException _ => False
  | _ => True
  end.

(** A frame as the resolver collects them for a searched name: the
    three columns, and in every row the searched name last. *)
Definition collected_for (venue : string) (df : DataFrame) : Prop :=
  df_columns df = venue_id_columns
  /\ Forall (fun row => exists name id, row = [name; id; PStr venue])
       (df_data df).

(** ** Running the client *)

(** One step of a run: the first pure operation of a sequence is exposed
    to rewriting. *)
Ltac run_lift := unfold bind at 1, lift at 1.

(** ** Lists, labels and dicts *)

Lemma mem_In (k : string) (l : list string) : mem k l = true <-> In k l.
Proof.
  unfold mem. rewrite existsb_exists. split.
  - intros [x [Hx He]]. apply String.eqb_eq in He. now subst.
  - intros H. exists k. split; [assumption | apply String.eqb_refl].
Qed.

Lemma mem_false (k : string) (l : list string) : mem k l = false <-> ~ In k l.
Proof.
  rewrite <- mem_In. destruct (mem k l); split; intros; congruence.
Qed.

Lemma uniq_from_In (x : string) (l seen : list string) :
  In x (uniq_from seen l) <-> In x l /\ ~ In x seen.
Proof.
  revert seen. induction l as [|a l IH]; intros seen; cbn.
  - tauto.
  - destruct (mem a seen) eqn:Hm.
    + apply mem_In in Hm. rewrite IH. split.
      * intros [H1 H2]. tauto.
      * intros [[<- | H1] H2]; tauto.
    + apply mem_false in Hm. cbn. rewrite IH. cbn. split.
      * intros [<- | [H1 H2]]; tauto.
      * intros [[<- | H1] H2]; [tauto|].
        destruct (string_dec a x) as [<- | Hne]; tauto.
Qed.

Lemma uniq_from_NoDup (l seen : list string) : NoDup (uniq_from seen l).
Proof.
  revert seen. induction l as [|a l IH]; intros seen; cbn.
  - constructor.
  - destruct (mem a seen) eqn:Hm; [apply IH|].
    constructor; [|apply IH].
    rewrite uniq_from_In. cbn. tauto.
Qed.

Lemma uniq_In (x : string) (l : list string) : In x (uniq l) <-> In x l.
Proof. unfold uniq. rewrite uniq_from_In. cbn. tauto. Qed.

Lemma uniq_NoDup (l : list string) : NoDup (uniq l).
Proof. apply uniq_from_NoDup. Qed.

Lemma filter_eqb_absent (c : string) (l : list string) :
  ~ In c l -> filter (String.eqb c) l = [].
Proof.
  induction l as [|a l IH]; cbn; intros H; [reflexivity|].
  destruct (String.eqb c a) eqn:He.
  - apply String.eqb_eq in He. subst. tauto.
  - apply IH. tauto.
Qed.

Lemma filter_eqb_unique (c : string) (l : list string) :
  NoDup l -> In c l -> filter (String.eqb c) l = [c].
Proof.
  induction 1 as [|a l Ha Hl IH]; cbn; [tauto|].
  intros [-> | Hin].
  - rewrite String.eqb_refl. f_equal. now apply filter_eqb_absent.
  - destruct (String.eqb c a) eqn:He.
    + apply String.eqb_eq in He. subst. tauto.
    + now apply IH.
Qed.

Lemma cells_at_absent (f : string -> pyval) (c : string) (l : list string) :
  ~ In c l -> cells_at c l (map f l) = [].
Proof.
  unfold cells_at. induction l as [|a l IH]; cbn; intros H; [reflexivity|].
  destruct (String.eqb a c) eqn:He.
  - apply String.eqb_eq in He. tauto.
  - apply IH. tauto.
Qed.

Lemma cells_at_unique (f : string -> pyval) (c : string) (l : list string) :
  NoDup l -> In c l -> cells_at c l (map f l) = [f c].
Proof.
  induction 1 as [|a l Ha Hl IH]; [cbn; tauto|].
  intros [-> | Hin].
  - unfold cells_at. cbn. rewrite String.eqb_refl. cbn. f_equal.
    now apply (cells_at_absent f).
  - unfold cells_at. cbn. destruct (String.eqb a c) eqn:He.
    + apply String.eqb_eq in He. subst. tauto.
    + now apply IH.
Qed.

Lemma dict_get_mem (d : dict) (k : string) :
  mem k (dict_keys d) = true <-> dict_get d k <> None.
Proof.
  induction d as [|[k' v] d IH]; cbn.
  - split; [discriminate | congruence].
  - rewrite String.eqb_sym. destruct (String.eqb k' k); cbn.
    + split; [discriminate | reflexivity].
    + apply IH.
Qed.

Lemma dict_get_set_same (d : dict) (k : string) (v : pyval) :
  dict_get (dict_set d k v) k = Some v.
Proof.
  induction d as [|[k' v'] d IH]; cbn.
  - now rewrite String.eqb_refl.
  - destruct (String.eqb k' k) eqn:He; cbn; rewrite He; [reflexivity | exact IH].
Qed.

Lemma dict_get_set_other (d : dict) (k k' : string) (v : pyval) :
  k' <> k -> dict_get (dict_set d k v) k' = dict_get d k'.
Proof.
  intros Hne. induction d as [|[k0 v0] d IH]; cbn.
  - destruct (String.eqb k k') eqn:He; [|reflexivity].
    apply String.eqb_eq in He. congruence.
  - destruct (String.eqb k0 k) eqn:He; cbn.
    + apply String.eqb_eq in He. subst k0.
      destruct (String.eqb k k') eqn:He'; [|reflexivity].
      apply String.eqb_eq in He'. congruence.
    + destruct (String.eqb k0 k'); [reflexivity | exact IH].
Qed.

Lemma getattr_sg_kind (sg : SeatGeekDataStructure) (k : ResourceKind) :
  getattr_sg sg (kind_name k) = Ok (configured sg k).
Proof. destruct k; reflexivity. Qed.

(** ** The projector *)

Lemma getitem_columns_records (rs : list dict) (index : list Z)
      (have columns : list string) :
  NoDup have ->
  (forall c, In c columns -> In c have) ->
  getitem_columns (mkFrame have index (map (fun r => map (cell r) have) rs))
    columns
  = Ok (mkFrame columns index (map (project_record columns) rs)).
Proof.
  intros Hnd Hsub. unfold getitem_columns.
  cbn [df_columns df_index df_data].
  assert (Hall : forallb (fun c => mem c have) columns = true).
  { apply forallb_forall. intros c Hc. apply mem_In. auto. }
  rewrite Hall. f_equal. f_equal.
  - clear Hall. induction columns as [|c cs IH]; cbn; [reflexivity|].
    rewrite filter_eqb_unique by (auto; apply Hsub; now left).
    cbn. f_equal. apply IH. intros c' Hc'. apply Hsub. now right.
  - rewrite map_map. apply map_ext. intros r. unfold project_record.
    clear Hall. induction columns as [|c cs IH]; cbn; [reflexivity|].
    rewrite cells_at_unique by (auto; apply Hsub; now left).
    cbn. f_equal. apply IH. intros c' Hc'. apply Hsub. now right.
Qed.

(** C1.  For each of the four resource kinds: when the raw response maps the
    kind's name to a list of records and every configured column is a key
    of some record, [_send_request] makes one call and returns the response
    with that list replaced by a table whose columns are the configured
    list, in the configured order, with one row per record, labelled from
    0 on, each row holding one cell per configured column and nothing
    else. *)
Theorem send_request_projects
        (Scalpyr : list base_call -> base_call -> res pyval)
        (sg : SeatGeekDataStructure) (kind : ResourceKind)
        (req_args req_id : pyval) (w : world)
        (d : dict) (l : list pyval) (rs : list dict) :
  let request := Super_send_request (kind_name kind) req_args req_id in
  Scalpyr (calls w) request = Ok (PDict d) ->
  dict_get d (kind_name kind) = Some (PList l) ->
  as_records l = Some rs ->
  (forall c, In c (configured sg kind) ->
             exists r, In r rs /\ In c (dict_keys r)) ->
  exists data,
    _send_request Scalpyr sg (kind_name kind) req_args req_id w
    = (Ok (PDict (dict_set d (kind_name kind)
                    (PFrame (mkFrame (configured sg kind)
                               (range (List.length rs)) data)))),
       mkWorld (calls w ++ [request]) (stdout w))
    /\ List.length data = List.length rs
    /\ Forall (fun row => List.length row
                          = List.length (configured sg kind)) data.
Proof.
  intros request Hresp Hkey Hrec Hcols.
  exists (map (project_record (configured sg kind)) rs).
  split; [|split].
  - unfold _send_request, bind, call, lift, try_except. fold request.
    rewrite Hresp. cbn.
    assert (Hmem : mem (kind_name kind) (dict_keys d) = true).
    { apply dict_get_mem. congruence. }
    rewrite Hmem. cbn. rewrite getattr_sg_kind. rewrite Hkey. cbn.
    rewrite Hrec.
    rewrite getitem_columns_records.
    + reflexivity.
    + apply uniq_NoDup.
    + intros c Hc. apply uniq_In. apply in_flat_map.
      destruct (Hcols c Hc) as [r [Hr Hk]]. now exists r.
  - apply length_map.
  - apply Forall_map. apply Forall_forall. intros r _.
    unfold project_record. apply length_map.
Qed.

Lemma send_request_projects_witness :
  exists data,
    fst (_send_request performers_transport (init None)
           "performers" PNone PNone (mkWorld [] []))
    = Ok (PDict
            [("performers",
              PFrame
                (mkFrame
                   ["type"; "name"; "id"; "has_upcoming_events"; "primary";
                    "url"; "score"; "slug"; "num_upcoming_events"]
                   [0; 1] data));
             ("meta", PDict [("total", PInt 2); ("per_page", PInt 10);
                             ("page", PInt 1)])])
    /\ List.length data = 2%nat.
Proof.
  destruct (send_request_projects performers_transport
              (init None) Performers PNone PNone
              (mkWorld [] []) _ _ _ eq_refl eq_refl eq_refl)
    as (data & Hrun & Hlen & _).
  - cbn. intros c Hc. eexists. split; [left; reflexivity|].
    cbn. intuition.
  - exists data. split; [|exact Hlen].
    exact (f_equal fst Hrun).
Defined.

(** C3.  When the requested kind is not a key of the raw response,
    [_send_request] raises [ApiException], and the exception carries the
    whole raw response. *)
Theorem send_request_missing_key
        (Scalpyr : list base_call -> base_call -> res pyval)
        (sg : SeatGeekDataStructure) (req_type : string)
        (req_args req_id : pyval) (w : world) (d : dict) :
  let request := Super_send_request req_type req_args req_id in
  Scalpyr (calls w) request = Ok (PDict d) ->
  ~ In req_type (dict_keys d) ->
  _send_request Scalpyr sg req_type req_args req_id w
  = (Raise (ApiException (PDict d)),
     mkWorld (calls w ++ [request]) (stdout w)).
Proof.
  intros request Hresp Habs.
  unfold _send_request, bind, call, lift. fold request. rewrite Hresp. cbn.
  apply mem_false in Habs. rewrite Habs. reflexivity.
Qed.

Lemma send_request_missing_key_witness :
  _send_request error_transport (init None) "events"
    PNone PNone (mkWorld [] [])
  = (Raise (ApiException (PDict [("error", PStr "bad request")])),
     mkWorld [Super_send_request "events" PNone PNone] []).
Proof.
  refine (send_request_missing_key error_transport (init None)
            "events" PNone PNone (mkWorld [] []) _ eq_refl _).
  cbn. intros [H | []]. discriminate H.
Defined.

(** C4, as the code has it.  A kind that is a key of the raw response and
    none of the schema's fields does not end in [ApiException]: the lookup
    of the schema raises [AttributeError], the handler around it catches
    [KeyError] only, and [AttributeError] leaves [_send_request]. *)
Theorem send_request_unrecognized_kind (sg : SeatGeekDataStructure) (w : world) :
  fst (_send_request taxonomies_transport sg "taxonomies" PNone PNone w)
  = Raise AttributeError
  /\ forall response,
      fst (_send_request taxonomies_transport sg "taxonomies" PNone PNone w)
      <> Raise (ApiException response).
Proof.
  split; [reflexivity | discriminate].
Qed.

(** ** Lookups by id *)

Lemma decimal_of_to_int (z : Z) :
  decimal_of z (NilZero.string_of_int (Z.to_int z)).
Proof.
  exists (Z.to_int z). split; [|split].
  - rewrite <- (DecimalZ.to_of (Z.to_int z)). now rewrite DecimalZ.of_to.
  - apply DecimalZ.of_to.
  - reflexivity.
Qed.

(** An integer has one decimal numeral. *)
Lemma decimal_of_unique (z : Z) (str str' : string) :
  decimal_of z str -> decimal_of z str' -> str = str'.
Proof.
  intros (d & Hn & Hz & Hs) (d' & Hn' & Hz' & Hs').
  assert (Hd : d = d').
  { rewrite <- Hn, <- Hn'. apply DecimalZ.of_iff. congruence. }
  subst d'. congruence.
Qed.

Lemma join_ids_column (values : list pyval) :
  Forall is_id values ->
  exists strs, map_res py_str values = Ok strs
               /\ Forall2 written values strs.
Proof.
  induction 1 as [|v values Hv Hvalues IH]; cbn [map_res].
  - exists []. split; [reflexivity | constructor].
  - destruct IH as (strs & Hstrs & Hwritten). rewrite Hstrs.
    destruct v as [| | |z|x| | |]; cbn in Hv; try contradiction; cbn.
    + eexists. split; [reflexivity|]. constructor; [|exact Hwritten].
      apply decimal_of_to_int.
    + eexists. split; [reflexivity|]. constructor; [reflexivity|].
      exact Hwritten.
Qed.

Lemma join_ids_joinable (ids : IdList) :
  joinable ids -> exists s, join_ids ids = Ok s /\ comma_joined ids s.
Proof.
  destruct ids as [column | l]; cbn [joinable join_ids].
  - intros Hids. destruct (join_ids_column _ Hids) as (strs & Hstrs & Hw).
    rewrite Hstrs. exists (join "," strs). split; [reflexivity|].
    exists strs. split; [reflexivity | exact Hw].
  - intros _. exists (join "," l). split; [reflexivity|].
    exists l. split; reflexivity.
Qed.

(** C7.  For each of the three kinds and an id list given as strings or as
    a column of ids: the ids are joined into one string [s], a string as
    it is and an integer of a column as its decimal numeral, with a comma
    between one and the next, and [get_by_id] makes exactly one call, the
    kind's lookup with the filter [{"id": s}]; what that call answers is
    the result. *)
Theorem get_by_id_single_request
        (Scalpyr : list base_call -> base_call -> res pyval)
        (req_type : string) (method : pyval -> base_call)
        (ids : IdList) (w : world) :
  In (req_type, method) lookup_methods ->
  joinable ids ->
  exists s,
    comma_joined ids s
    /\ get_by_id Scalpyr req_type ids w
       = (Scalpyr (calls w) (method (PDict [("id", PStr s)])),
          mkWorld (calls w ++ [method (PDict [("id", PStr s)])]) (stdout w)).
Proof.
  intros Hin Hids.
  destruct (join_ids_joinable ids Hids) as (s & Hjoin & Hs).
  exists s. split; [exact Hs|].
  unfold get_by_id, bind, lift. rewrite Hjoin.
  cbn in Hin.
  destruct Hin as [H | [H | [H | []]]]; inversion H; subst; reflexivity.
Qed.

Lemma get_by_id_single_request_witness :
  exists s,
    comma_joined (IdSeries (mkSeries [0; 1; 2] [PInt 10; PStr "77"; PInt (-3)]))
      s
    /\ s = "10,77,-3"
    /\ snd (get_by_id error_transport "events"
              (IdSeries (mkSeries [0; 1; 2] [PInt 10; PStr "77"; PInt (-3)]))
              (mkWorld [] []))
       = mkWorld [Get_events (PDict [("id", PStr s)])] [].
Proof.
  destruct (get_by_id_single_request error_transport "events" Get_events
              (IdSeries (mkSeries [0; 1; 2] [PInt 10; PStr "77"; PInt (-3)]))
              (mkWorld [] []) (or_introl eq_refl))
    as (s & Hs & Hrun).
  - repeat apply Forall_cons; try apply Forall_nil; exact I.
  - exists s. split; [exact Hs|].
    assert (Hfilter : s = "10,77,-3").
    { pose proof (f_equal snd Hrun) as Hworld. cbn in Hworld.
      now inversion Hworld. }
    split; [exact Hfilter|]. rewrite Hrun. reflexivity.
Defined.

(** ** Stacking frames *)

Lemma as_frames_map (dfs : list DataFrame) :
  as_frames (map PFrame dfs) = Some dfs.
Proof.
  induction dfs as [|df dfs IH]; cbn; [reflexivity|]. now rewrite IH.
Qed.

Lemma filter_not_None_frames (dfs : list DataFrame) :
  filter (fun o => negb (is_None o)) (map PFrame dfs) = map PFrame dfs.
Proof.
  induction dfs as [|df dfs IH]; cbn; [reflexivity|]. now rewrite IH.
Qed.

Lemma same_columns_all (columns : list string) (dfs : list DataFrame) :
  Forall (fun df => df_columns df = columns) dfs -> same_columns dfs = true.
Proof.
  intros H. destruct dfs as [|df dfs]; [reflexivity|]. cbn.
  inversion H as [|? ? Hdf Hdfs]; subst.
  apply forallb_forall. intros df' Hin.
  rewrite Forall_forall in Hdfs. rewrite (Hdfs df' Hin).
  destruct (list_eq_dec string_dec (df_columns df) (df_columns df));
    [reflexivity | contradiction].
Qed.

(** Frames that share their column list are stacked row by row, in the
    order of the list. *)
Lemma concat_same_columns (columns : list string) (df : DataFrame)
      (dfs : list DataFrame) (ignore_index : bool) :
  Forall (fun df' => df_columns df' = columns) (df :: dfs) ->
  pd.concat (map PFrame (df :: dfs)) ignore_index
  = Ok (mkFrame columns
          (if ignore_index
           then range (List.length (flat_map df_data (df :: dfs)))
           else flat_map df_index (df :: dfs))
          (flat_map df_data (df :: dfs))).
Proof.
  intros H. unfold pd.concat.
  rewrite filter_not_None_frames.
  change (map PFrame (df :: dfs)) with (PFrame df :: map PFrame dfs) at 1 2.
  cbv iota.
  change (PFrame df :: map PFrame dfs) with (map PFrame (df :: dfs)).
  rewrite as_frames_map. rewrite (same_columns_all columns _ H).
  inversion H; subst. reflexivity.
Qed.

Lemma keep_map_filter {A} (f : A -> bool) (l : list A) :
  keep (map f l) l = filter f l.
Proof.
  unfold keep. induction l as [|a l IH]; cbn; [reflexivity|].
  destruct (f a); cbn; now rewrite IH.
Qed.

Lemma combine_map_map {A B C} (f : A -> B) (g : A -> C) (l : list A) :
  combine (map f l) (map g l) = map (fun a => (f a, g a)) l.
Proof.
  induction l as [|a l IH]; cbn; [reflexivity|]. now rewrite IH.
Qed.

(** ** The venue resolver *)

Lemma gt_zero_counts (df : DataFrame) (rows : list (list pyval)) :
  Forall (fun row => is_count (column df "num_upcoming_events" row)) rows ->
  map_res cell_gt_zero (map (column df "num_upcoming_events") rows)
  = Ok (map (has_upcoming df) rows).
Proof.
  induction 1 as [|row rows Hrow Hrows IH]; cbn; [reflexivity|].
  rewrite IH. unfold has_upcoming.
  destruct (column df "num_upcoming_events" row); cbn in *;
    try contradiction; reflexivity.
Qed.

Lemma flat_map_contribution_data (l : list (string * res pyval)) :
  flat_map df_data (flat_map contribution_of l) = flat_map rows_of l.
Proof.
  induction l as [|[v o] l IH]; [reflexivity|].
  change (flat_map contribution_of ((v, o) :: l))
    with (contribution_of (v, o) ++ flat_map contribution_of l).
  change (flat_map rows_of ((v, o) :: l))
    with (rows_of (v, o) ++ flat_map rows_of l).
  rewrite flat_map_app. f_equal; [|exact IH].
  unfold contribution_of, rows_of. cbn [fst snd].
  destruct o as [[| | | | | | |df]|e]; try reflexivity.
  unfold contribution.
  destruct (df_data df) eqn:Hdata.
  - unfold venue_rows. now rewrite Hdata.
  - cbn [flat_map venue_frame df_data]. apply app_nil_r.
Qed.

Lemma contribution_columns (l : list (string * res pyval)) :
  Forall (fun df => df_columns df = venue_id_columns)
    (flat_map contribution_of l).
Proof.
  apply Forall_flat_map. apply Forall_forall. intros [v o] _.
  unfold contribution_of. cbn.
  destruct o as [[| | | | | | |df]|e]; try constructor.
  unfold contribution. destruct (df_data df); repeat constructor.
Qed.

Section Resolver.

Variable Scalpyr : list base_call -> base_call -> res pyval.

Lemma venues_loop_failed (venue : string) (rest : list string)
      (all_venue_data : list pyval) (failed : list string) (w : world)
      (response : pyval) :
  Scalpyr (calls w) (venue_search venue) = Raise (ApiException response) ->
  venues_loop Scalpyr (venue :: rest) all_venue_data failed w
  = venues_loop Scalpyr rest all_venue_data (failed ++ [venue])
      (mkWorld (calls w ++ [venue_search venue]) (stdout w)).
Proof.
  intros H. cbn [venues_loop].
  unfold bind at 1. unfold try_except, bind, call, ret.
  fold (venue_search venue). now rewrite H.
Qed.

Lemma getattr_column_unique (df : DataFrame) (name : string) :
  filter (String.eqb name) (df_columns df) = [name] ->
  getattr_column (PFrame df) name
  = Ok (mkSeries (df_index df) (map (column df name) (df_data df))).
Proof. intros H. unfold getattr_column. now rewrite H. Qed.

Lemma venues_loop_found (venue : string) (rest : list string)
      (all_venue_data : list pyval) (failed : list string) (w : world)
      (df : DataFrame) :
  Scalpyr (calls w) (venue_search venue) = Ok (PFrame df) ->
  venue_table df ->
  venues_loop Scalpyr (venue :: rest) all_venue_data failed w
  = venues_loop Scalpyr rest
      (all_venue_data ++ map PFrame (contribution venue df)) failed
      (mkWorld (calls w ++ [venue_search venue]) (stdout w)).
Proof.
  intros H (Hid & Hname & Hcount & Hcounts). cbn [venues_loop].
  unfold bind at 1. unfold try_except, bind at 1, call, ret.
  fold (venue_search venue). rewrite H.
  run_lift.
  rewrite (getattr_column_unique df "id" Hid). cbn [s_values].
  unfold contribution. rewrite length_map.
  destruct (df_data df) as [|row rows] eqn:Hdata.
  - cbn. now rewrite app_nil_r.
  - cbn [List.length Nat.ltb Nat.leb].
    run_lift.
    rewrite (getattr_column_unique df "num_upcoming_events" Hcount).
    run_lift; unfold gt_zero. cbn [s_values].
    rewrite Hdata. rewrite (gt_zero_counts df (row :: rows) Hcounts).
    run_lift.
    rewrite (getattr_column_unique (loc df _) "name" Hname).
    run_lift.
    rewrite (getattr_column_unique (loc df _) "id" Hid).
    run_lift; unfold frame_of_series. cbn [s_index s_values].
    destruct (list_eq_dec Z.eq_dec (df_index (loc df (map (has_upcoming df) (row :: rows))))
                (df_index (loc df (map (has_upcoming df) (row :: rows)))))
      as [_ | Hne]; [|contradiction].
    f_equal. f_equal. f_equal. f_equal.
    unfold set_column, venue_frame, venue_rows, loc.
    cbn [df_columns df_index df_data mem existsb String.eqb Ascii.eqb
         Bool.eqb orb].
    rewrite Hdata. cbn [app]. f_equal.
    rewrite keep_map_filter. rewrite combine_map_map. rewrite !map_map.
    reflexivity.
Qed.

Lemma venues_loop_digestible (venues : list string) :
  forall (all_venue_data : list pyval) (failed : list string) (w : world),
    Forall (fun found => digestible (snd found)) (searches Scalpyr (calls w) venues) ->
    venues_loop Scalpyr venues all_venue_data failed w
    = (Ok (all_venue_data
             ++ map PFrame (flat_map contribution_of (searches Scalpyr (calls w) venues)),
           failed ++ flat_map failed_of (searches Scalpyr (calls w) venues)),
       mkWorld (calls w ++ map venue_search venues) (stdout w)).
Proof.
  induction venues as [|venue rest IH]; intros all_venue_data failed w Hall.
  - cbn. rewrite !app_nil_r. now destruct w.
  - cbn [searches] in *. inversion Hall as [|? ? Hhead Htail]; subst.
    cbn [snd] in Hhead.
    destruct Hhead as [[response Hr] | [df [Hr Hdf]]].
    + rewrite (venues_loop_failed _ _ _ _ _ _ Hr).
      rewrite IH by exact Htail.
      cbn [calls stdout flat_map map]. rewrite Hr.
      unfold contribution_of at 2, failed_of at 2. cbn [fst snd app].
      rewrite <- !app_assoc. reflexivity.
    + rewrite (venues_loop_found _ _ _ _ _ _ Hr Hdf).
      rewrite IH by exact Htail.
      cbn [calls stdout flat_map map]. rewrite Hr.
      unfold contribution_of at 2, failed_of at 2. cbn [fst snd app].
      rewrite map_app. rewrite <- !app_assoc. reflexivity.
Qed.

Lemma get_venue_ids_digestible (venues : list string) (w : world) :
  Forall (fun found => digestible (snd found)) (searches Scalpyr (calls w) venues) ->
  get_venue_ids Scalpyr venues w
  = (match flat_map contribution_of (searches Scalpyr (calls w) venues) with
     | [] => Raise ValueError
     | _ => Ok (PFrame
                  (mkFrame venue_id_columns
                     (range (List.length
                               (flat_map rows_of (searches Scalpyr (calls w) venues))))
                     (flat_map rows_of (searches Scalpyr (calls w) venues))))
     end,
     mkWorld (calls w ++ map venue_search venues)
       (stdout w
          ++ diagnostic (flat_map failed_of (searches Scalpyr (calls w) venues)))).
Proof.
  intros Hall. unfold get_venue_ids.
  unfold bind at 1. rewrite (venues_loop_digestible venues [] [] w Hall).
  cbn [fst snd app].
  set (found := searches Scalpyr (calls w) venues).
  assert (Hprint :
    (if (0 <? List.length (flat_map failed_of found))%nat
     then print ("Could not find venues: " ++ newline
                   ++ join newline (flat_map failed_of found))%string
     else ret tt)
      (mkWorld (calls w ++ map venue_search venues) (stdout w))
    = (Ok tt, mkWorld (calls w ++ map venue_search venues)
                (stdout w ++ diagnostic (flat_map failed_of found)))).
  { destruct (flat_map failed_of found); cbn.
    - unfold ret. now rewrite app_nil_r.
    - reflexivity. }
  unfold bind at 1. rewrite Hprint. clear Hprint.
  unfold bind, lift, ret.
  pose proof (contribution_columns found) as Hcols.
  pose proof (flat_map_contribution_data found) as Hrows.
  destruct (flat_map contribution_of found) as [|df dfs] eqn:Hfr.
  - reflexivity.
  - rewrite (concat_same_columns venue_id_columns df dfs true Hcols).
    rewrite Hrows. reflexivity.
Qed.

End Resolver.

Lemma has_upcoming_positive (df : DataFrame) (row : list pyval) :
  has_upcoming df row = true
  <-> exists z, column df "num_upcoming_events" row = PInt z /\ 0 < z.
Proof.
  unfold has_upcoming. split.
  - destruct (column df "num_upcoming_events" row); try discriminate.
    intros H. apply Z.ltb_lt in H. eauto.
  - intros [z [-> Hz]]. now apply Z.ltb_lt.
Qed.

(** C6.  When every search of the run either raises [ApiException] or
    answers with a table of venues, [get_venue_ids] searches every name in
    the order given, whatever failed before; prints the names whose search
    raised, and only when there are some; and returns the table with the
    columns [venue], [venue_id], [searched_venue] that holds exactly one row
    for each venue with [num_upcoming_events > 0] of each answered search,
    in order, the row giving the venue's name, its id and the name searched
    for.  No row comes from a search that raised.  (When no search found
    any venue there is nothing to stack: see C8.) *)
Theorem get_venue_ids_resolves
        (Scalpyr : list base_call -> base_call -> res pyval)
        (venues : list string) (w : world) :
  let found := searches Scalpyr (calls w) venues in
  let rows := flat_map rows_of found in
  let failed := flat_map failed_of found in
  Forall (fun search => digestible (snd search)) found ->
  snd (get_venue_ids Scalpyr venues w)
  = mkWorld (calls w ++ map venue_search venues)
      (stdout w ++ diagnostic failed)
  /\ fst (get_venue_ids Scalpyr venues w)
     = match flat_map contribution_of found with
       | [] => Raise ValueError
       | _ => Ok (PFrame (mkFrame venue_id_columns
                            (range (List.length rows)) rows))
       end
  /\ (forall venue,
         In venue failed
         <-> exists response, In (venue, Raise (ApiException response)) found)
  /\ (forall row,
         In row rows
         <-> exists venue df r,
           In (venue, Ok (PFrame df)) found
           /\ In r (df_data df)
           /\ (exists z, column df "num_upcoming_events" r = PInt z /\ 0 < z)
           /\ row = [column df "name" r; column df "id" r; PStr venue]).
Proof.
  intros found rows failed Hall.
  rewrite (get_venue_ids_digestible Scalpyr venues w Hall).
  fold found. fold rows. fold failed.
  split; [reflexivity|]. split; [reflexivity|]. split.
  - intros venue. unfold failed. rewrite in_flat_map. split.
    + intros [[v o] [Hin Hv]]. unfold failed_of in Hv. cbn [fst snd] in Hv.
      destruct o as [a|e]; [contradiction|].
      destruct e as [response| | | | | | | |]; cbn in Hv; try contradiction.
      destruct Hv as [<- | []]. now exists response.
    + intros [response Hin]. eexists. split; [exact Hin|]. now left.
  - intros row. unfold rows. rewrite in_flat_map. split.
    + intros [[v o] [Hin Hrow]]. unfold rows_of in Hrow. cbn [fst snd] in Hrow.
      destruct o as [[| | | | | | |df]|e]; cbn in Hrow; try contradiction.
      unfold venue_rows in Hrow. apply in_map_iff in Hrow.
      destruct Hrow as [r [<- Hr]]. apply filter_In in Hr.
      destruct Hr as [Hr Hup]. apply has_upcoming_positive in Hup.
      exists v, df, r. auto.
    + intros (v & df & r & Hin & Hr & Hup & ->).
      exists (v, Ok (PFrame df)). split; [exact Hin|].
      unfold rows_of, venue_rows. cbn [fst snd]. apply in_map_iff.
      exists r. split; [reflexivity|]. apply filter_In.
      split; [exact Hr|]. now apply has_upcoming_positive.
Qed.

Lemma get_venue_ids_resolves_witness :
  snd (get_venue_ids garden_search
         ["Madison Square Garden"; "NoSuchVenueXYZ"] (mkWorld [] []))
  = mkWorld [venue_search "Madison Square Garden";
             venue_search "NoSuchVenueXYZ"]
      [("Could not find venues: " ++ newline ++ "NoSuchVenueXYZ")%string]
  /\ fst (get_venue_ids garden_search
            ["Madison Square Garden"; "NoSuchVenueXYZ"] (mkWorld [] []))
     = Ok (PFrame
             (mkFrame ["venue"; "venue_id"; "searched_venue"] [0]
                [[PStr "Madison Square Garden"; PInt 10;
                  PStr "Madison Square Garden"]])).
Proof.
  assert (H : Forall (fun search => digestible (snd search))
                (searches garden_search (calls (mkWorld [] []))
                   ["Madison Square Garden"; "NoSuchVenueXYZ"])).
  { apply Forall_cons; [|apply Forall_cons; [|apply Forall_nil]].
    - right. eexists. split; [reflexivity|].
      repeat split; repeat apply Forall_cons; try apply Forall_nil; exact I.
    - left. eexists. reflexivity. }
  destruct (get_venue_ids_resolves garden_search
              ["Madison Square Garden"; "NoSuchVenueXYZ"] (mkWorld [] []) H)
    as (Hworld & Hresult & _).
  split; [exact Hworld | exact Hresult].
Defined.

(** C8.  When every search raises [ApiException], nothing was collected and
    the final [pd.concat] raises [ValueError] for want of objects; this is
    not the outcome of a run whose searches answer with venues none of
    which has upcoming events, which returns a table without rows. *)
Theorem get_venue_ids_all_failed
        (Scalpyr : list base_call -> base_call -> res pyval)
        (venues : list string) (w : world) :
  Forall (fun search => exists response,
              snd search = Raise (ApiException response))
    (searches Scalpyr (calls w) venues) ->
  fst (get_venue_ids Scalpyr venues w) = Raise ValueError
  /\ fst (get_venue_ids quiet_search ["Old Hall"] (mkWorld [] []))
     = Ok (PFrame (mkFrame venue_id_columns [] [])).
Proof.
  intros Hall. split; [|reflexivity].
  assert (Hdig : Forall (fun search => digestible (snd search))
                   (searches Scalpyr (calls w) venues)).
  { eapply Forall_impl; [|exact Hall]. intros search H. now left. }
  rewrite (get_venue_ids_digestible Scalpyr venues w Hdig). cbn [fst].
  assert (Hnone : flat_map contribution_of (searches Scalpyr (calls w) venues)
                  = []).
  { induction Hall as [|[v o] l [response Hr] Hl IH]; [reflexivity|].
    cbn [flat_map]. rewrite IH by (now inversion Hdig).
    cbn in Hr. subst o. reflexivity. }
  now rewrite Hnone.
Qed.

Lemma get_venue_ids_all_failed_witness :
  fst (get_venue_ids garden_search ["NoSuchVenueXYZ"; "Nowhere Hall"]
         (mkWorld [] []))
  = Raise ValueError.
Proof.
  refine (proj1 (get_venue_ids_all_failed garden_search
                   ["NoSuchVenueXYZ"; "Nowhere Hall"] (mkWorld [] []) _)).
  repeat apply Forall_cons; try apply Forall_nil; eexists; reflexivity.
Defined.

(** ** The pager *)

Lemma pages_from_S (page_num : Z) (n : nat) :
  pages_from page_num (S n) = page_num :: pages_from (page_num + 1) n.
Proof.
  unfold pages_from. cbn [seq map]. f_equal; [lia|].
  rewrite <- seq_shift, map_map. apply map_ext. intros i. lia.
Qed.

Lemma last_cons {A} (a d : A) (l : list A) : last (a :: l) d = last l a.
Proof.
  revert a d. induction l as [|b l IH]; intros a d; [reflexivity|].
  change (last (a :: b :: l) d) with (last (b :: l) d).
  now rewrite !IH.
Qed.

Lemma asked_page (lookup_field : string) (ids per_page event_type : pyval)
      (page_num : Z) :
  asked "page" (page_request lookup_field ids per_page event_type page_num)
  = Some (PInt page_num).
Proof. apply dict_get_set_same. Qed.

Lemma asked_per_page (lookup_field : string) (ids per_page event_type : pyval)
      (page_num : Z) :
  asked "per_page" (page_request lookup_field ids per_page event_type page_num)
  = Some per_page.
Proof.
  unfold asked, page_request.
  rewrite dict_get_set_other by discriminate. apply dict_get_set_same.
Qed.

(** The ceiling of a quotient is the least integer whose multiple reaches
    the dividend (read towards zero for a negative divisor). *)
Lemma ceil_div_spec (a b : Z) :
  b <> 0 ->
  0 <= ceil_div a b * b - a < b \/ b < ceil_div a b * b - a <= 0.
Proof.
  intros Hb. unfold ceil_div.
  pose proof (Z.div_mod (- a) b Hb) as Hdm.
  destruct (Z_lt_le_dec 0 b) as [Hpos | Hneg].
  - pose proof (Z.mod_pos_bound (- a) b Hpos). left. nia.
  - assert (Hlt : b < 0) by lia.
    pose proof (Z.mod_neg_bound (- a) b Hlt). right. nia.
Qed.

Section Pager.

Variable Scalpyr : list base_call -> base_call -> res pyval.

Variables (lookup_field : string) (ids per_page event_type : pyval)
          (total_pages : Z).

Lemma get_events_by_request (page_num : Z) :
  _get_events_by Scalpyr lookup_field ids per_page (PInt page_num) event_type
  = call Scalpyr (page_request lookup_field ids per_page event_type page_num).
Proof. reflexivity. Qed.

(** The fuel never decides: past the pages that remain, more of it
    changes nothing. *)
Lemma pages_loop_fuel (needed extra : nat) :
  forall (page_num : Z) (resp : pyval) (events_tables : list pyval) (w : world),
    needed = Z.to_nat (total_pages + 1 - page_num) ->
    pages_loop Scalpyr (needed + extra) lookup_field ids per_page event_type
      total_pages page_num resp events_tables w
    = pages_loop Scalpyr needed lookup_field ids per_page event_type
        total_pages page_num resp events_tables w.
Proof.
  induction needed as [|n IH]; intros page_num resp events_tables w Hfuel.
  - cbn [Nat.add pages_loop]. destruct extra as [|extra]; [reflexivity|].
    cbn [pages_loop].
    assert (Hgt : (page_num <=? total_pages) = false)
      by (apply Z.leb_gt; lia).
    now rewrite Hgt.
  - cbn [Nat.add pages_loop].
    destruct (page_num <=? total_pages); [|reflexivity].
    unfold bind at 1 3.
    destruct (_get_events_by Scalpyr lookup_field ids per_page
                (PInt page_num) event_type w) as [[resp'|e] w']; [|reflexivity].
    unfold bind at 1 2.
    destruct (lift (getitem resp' "events") w') as [[table|e] w''];
      [|reflexivity].
    apply IH. lia.
Qed.

(** A run of the loop over pages that all answer with a dict holding
    [events]: it asks for each page in turn and collects their tables. *)
Lemma pages_loop_run (fuel : nat) :
  forall (page_num : Z) (resp : pyval) (events_tables : list pyval)
         (w : world) (ds : list dict) (tables : list pyval),
    fuel = Z.to_nat (total_pages + 1 - page_num) ->
    answers Scalpyr (calls w)
      (map (page_request lookup_field ids per_page event_type)
         (pages_from page_num fuel))
    = map (fun d => Ok (PDict d)) ds ->
    map (fun d => dict_get d "events") ds = map Some tables ->
    pages_loop Scalpyr fuel lookup_field ids per_page event_type
      total_pages page_num resp events_tables w
    = (Ok (last (map PDict ds) resp, events_tables ++ tables),
       mkWorld (calls w
                  ++ map (page_request lookup_field ids per_page event_type)
                       (pages_from page_num fuel))
         (stdout w)).
Proof.
  induction fuel as [|fuel IH];
    intros page_num resp events_tables w ds tables Hfuel Hans Hev.
  - cbn in Hans. destruct ds; [|discriminate].
    destruct tables; [|discriminate].
    cbn. rewrite !app_nil_r. now destruct w.
  - rewrite pages_from_S in Hans |- *. cbn [map answers] in Hans.
    destruct ds as [|d ds]; [discriminate|].
    destruct tables as [|table tables]; [discriminate|].
    cbn [map] in Hans, Hev. inversion Hans as [[Hd Hds]].
    inversion Hev as [[Htable Htables]].
    cbn [pages_loop].
    assert (Hle : (page_num <=? total_pages) = true)
      by (apply Z.leb_le; lia).
    rewrite Hle. unfold bind at 1. rewrite get_events_by_request.
    unfold call. rewrite Hd. run_lift; unfold getitem. rewrite Htable.
    rewrite (IH (page_num + 1) (PDict d) (events_tables ++ [table])
               (mkWorld (calls w
                           ++ [page_request lookup_field ids per_page
                                 event_type page_num])
                  (stdout w)) ds tables); [| lia | exact Hds | exact Htables].
    cbn [calls stdout map]. rewrite last_cons.
    rewrite <- !app_assoc. reflexivity.
Qed.

End Pager.

Lemma math_ceil_div_ints (a b : Z) :
  b <> 0 ->
  Z.abs a < float_exact_bound ->
  Z.abs b < float_exact_bound ->
  math_ceil_div (PInt a) (PInt b) = Ok (ceil_div a b).
Proof.
  intros Hb Ha Hb'. unfold math_ceil_div. cbn [as_number].
  assert (Hexact : float_exact a && float_exact b = true).
  { unfold float_exact. apply andb_true_intro. split; now apply Z.ltb_lt. }
  rewrite Hexact. now destruct b.
Qed.

Lemma last_map_PDict (ds : list dict) (d : dict) :
  last (map PDict ds) (PDict d) = PDict (last ds d).
Proof.
  revert d. induction ds as [|d' ds IH]; intros d; [reflexivity|].
  cbn [map]. now rewrite !last_cons, IH.
Qed.

Lemma last_In {A} (l : list A) (d : A) : In (last l d) (d :: l).
Proof.
  revert d. induction l as [|a l IH]; intros d; [now left|].
  rewrite last_cons. right. apply IH.
Qed.

Lemma pages_from_length (page_num : Z) (n : nat) :
  List.length (pages_from page_num n) = n.
Proof. unfold pages_from. now rewrite length_map, length_seq. Qed.

Lemma dict_keys_set_present (d : dict) (k : string) (v : pyval) :
  dict_get d k <> None -> dict_keys (dict_set d k v) = dict_keys d.
Proof.
  induction d as [|[k' v'] d IH]; cbn; [congruence|].
  destruct (String.eqb k' k); cbn; [reflexivity|].
  intros H. f_equal. now apply IH.
Qed.

Section PagerRun.

Variable Scalpyr : list base_call -> base_call -> res pyval.

(** The arguments of [get_events_by] and the world it starts in. *)
Variables (req_type : string) (ids : IdList) (per_page event_type : pyval)
          (w : world).

(** The joined ids, the first page's response and its metadata, the later
    pages' responses, and the [events] entries of them all. *)
Variables (s : string) (d1 meta : dict) (total effective : Z)
          (ds : list dict) (tables : list pyval).

Let first_request : base_call :=
  page_request (lookup_field_of req_type) (PStr s) per_page event_type 1.

Let total_pages : Z := ceil_div total effective.

Let later_requests : list base_call :=
  map (page_request (lookup_field_of req_type) (PStr s) (PInt effective)
         event_type)
    (pages_from 2 (Z.to_nat (total_pages - 1))).

Hypothesis Hids : join_ids ids = Ok s.
Hypothesis Hfirst : Scalpyr (calls w) first_request = Ok (PDict d1).
Hypothesis Hmeta : dict_get d1 "meta" = Some (PDict meta).
Hypothesis Htotal : dict_get meta "total" = Some (PInt total).
Hypothesis Hper_page : dict_get meta "per_page" = Some (PInt effective).
Hypothesis Hnonzero : effective <> 0.

(** Both are integers that a float holds exactly, so that the ceiling of
    their float quotient is the ceiling of their quotient. *)
Hypothesis Htotal_exact : Z.abs total < float_exact_bound.
Hypothesis Heffective_exact : Z.abs effective < float_exact_bound.

Hypothesis Hlater :
  answers Scalpyr (calls w ++ [first_request]) later_requests
  = map (fun d => Ok (PDict d)) ds.
Hypothesis Hevents :
  map (fun d => dict_get d "events") (d1 :: ds) = map Some tables.

(** The whole run, when every page answers. *)
Lemma get_events_by_run :
  get_events_by Scalpyr req_type ids per_page event_type w
  = (match pd.concat tables false with
     | Ok df => Ok (PDict (dict_set (last ds d1) "events" (PFrame df)))
     | Raise e => Raise e
     end,
     mkWorld (calls w ++ first_request :: later_requests) (stdout w)).
Proof.
  destruct tables as [|table tables'] eqn:Htables; [discriminate|].
  cbn [map] in Hevents. inversion Hevents as [[Htable Hrest]].
  unfold get_events_by. run_lift. rewrite Hids.
  fold (lookup_field_of req_type).
  unfold bind at 1. rewrite get_events_by_request. unfold call.
  fold first_request. rewrite Hfirst.
  run_lift; unfold getitem at 1. rewrite Hmeta.
  run_lift; unfold getitem at 1. rewrite Htotal.
  run_lift; unfold getitem at 1. rewrite Hmeta.
  run_lift; unfold getitem at 1. rewrite Hper_page.
  run_lift.
  rewrite (math_ceil_div_ints _ _ Hnonzero Htotal_exact Heffective_exact).
  fold total_pages.
  run_lift; unfold getitem at 1. rewrite Htable.
  unfold bind at 1.
  replace (total_pages + 1 - 2) with (total_pages - 1) by lia.
  rewrite (pages_loop_run Scalpyr (lookup_field_of req_type) (PStr s)
             (PInt effective) event_type total_pages
             (Z.to_nat (total_pages - 1)) 2 (PDict d1) [table]
             (mkWorld (calls w ++ [first_request]) (stdout w)) ds tables');
    [| f_equal; lia | exact Hlater | exact Hrest].
  cbn [fst snd calls stdout app]. fold later_requests.
  rewrite last_map_PDict. rewrite <- app_assoc. cbn [app].
  unfold bind, lift.
  destruct (pd.concat (table :: tables') false); reflexivity.
Qed.

Lemma later_requests_length :
  List.length later_requests = Z.to_nat (total_pages - 1).
Proof. unfold later_requests. now rewrite length_map, pages_from_length. Qed.

Lemma requests_pages :
  map (asked "page") (first_request :: later_requests)
  = map (fun k => Some (PInt k))
      (pages_from 1 (Z.to_nat (Z.max 1 total_pages))).
Proof.
  replace (Z.to_nat (Z.max 1 total_pages))
    with (S (Z.to_nat (total_pages - 1))) by lia.
  rewrite pages_from_S. cbn [map]. f_equal; [apply asked_page|].
  unfold later_requests. rewrite map_map. apply map_ext.
  intros k. apply asked_page.
Qed.

(** C2.  The number of requests [get_events_by] makes is the number of
    pages, at least one, where the number of pages is the ceiling of
    [total] over the [per_page] that the first response reports in its
    metadata (integers that a float holds exactly); the page size the
    caller passed plays no part in it. *)
Theorem page_count_from_reported_per_page :
  List.length
    (calls (snd (get_events_by Scalpyr req_type ids per_page event_type w)))
  = (List.length (calls w) + Z.to_nat (Z.max 1 total_pages))%nat
  /\ (0 <= total_pages * effective - total < effective
      \/ effective < total_pages * effective - total <= 0).
Proof.
  rewrite get_events_by_run. cbn [snd calls]. split.
  - rewrite length_app. cbn [List.length]. rewrite later_requests_length. lia.
  - apply ceil_div_spec. exact Hnonzero.
Qed.

(** C10.  The first request carries the page size the caller passed; every
    later request, for pages 2 to the last in turn, carries the page size
    the first response reported. *)
Theorem later_pages_use_reported_per_page :
  calls (snd (get_events_by Scalpyr req_type ids per_page event_type w))
  = calls w ++ first_request :: later_requests
  /\ asked "per_page" first_request = Some per_page
  /\ Forall (fun request => asked "per_page" request = Some (PInt effective))
       later_requests
  /\ map (asked "page") later_requests
     = map (fun k => Some (PInt k))
         (pages_from 2 (Z.to_nat (total_pages - 1))).
Proof.
  rewrite get_events_by_run. cbn [snd calls].
  split; [reflexivity|]. split; [apply asked_per_page|]. split.
  - unfold later_requests. apply Forall_map. apply Forall_forall.
    intros k _. apply asked_per_page.
  - unfold later_requests. rewrite map_map. apply map_ext.
    intros k. apply asked_page.
Qed.

(** The frames the pages answer with, when they are frames over one
    column list. *)
Variables (columns : list string) (frames : list DataFrame).
Hypothesis Hframes : tables = map PFrame frames.
Hypothesis Hcolumns : Forall (fun df => df_columns df = columns) frames.

(** C5.  [get_events_by] makes exactly [max 1 total_pages] requests, for
    the pages 1, 2, ... in increasing order, and returns under [events] the
    per-page tables stacked in page order, the rows of each page in their
    own order. *)
Theorem get_events_by_fetches_all_pages :
  exists requests,
    calls (snd (get_events_by Scalpyr req_type ids per_page event_type w))
    = calls w ++ requests
    /\ List.length requests = Z.to_nat (Z.max 1 total_pages)
    /\ map (asked "page") requests
       = map (fun k => Some (PInt k))
           (pages_from 1 (Z.to_nat (Z.max 1 total_pages)))
    /\ answers Scalpyr (calls w) requests
       = map (fun d => Ok (PDict d)) (d1 :: ds)
    /\ exists out,
        fst (get_events_by Scalpyr req_type ids per_page event_type w)
        = Ok (PDict out)
        /\ dict_get out "events"
           = Some (PFrame (mkFrame columns (flat_map df_index frames)
                             (flat_map df_data frames))).
Proof.
  exists (first_request :: later_requests).
  rewrite get_events_by_run. cbn [fst snd calls].
  split; [reflexivity|]. split.
  { cbn [List.length]. rewrite later_requests_length. lia. }
  split; [apply requests_pages|]. split.
  { cbn [answers map]. now rewrite Hfirst, Hlater. }
  rewrite Hframes. destruct frames as [|df dfs].
  { rewrite Hframes in Hevents. discriminate Hevents. }
  rewrite (concat_same_columns columns df dfs false Hcolumns).
  eexists. split; [reflexivity|]. apply dict_get_set_same.
Qed.

(** The table the stacking yields. *)
Variable stacked : DataFrame.
Hypothesis Hstacked : pd.concat tables false = Ok stacked.

(** C9.  The result is the response of the last page fetched with the
    stacked table put under [events]: it has the same keys, and under
    every key but [events], the metadata block among them, the value the
    last response has. *)
Theorem get_events_by_keeps_last_response :
  exists last_response out,
    last (answers Scalpyr (calls w) (first_request :: later_requests))
      (Raise KeyError)
    = Ok (PDict last_response)
    /\ fst (get_events_by Scalpyr req_type ids per_page event_type w)
       = Ok (PDict out)
    /\ out = dict_set last_response "events" (PFrame stacked)
    /\ dict_get out "events" = Some (PFrame stacked)
    /\ dict_keys out = dict_keys last_response
    /\ forall key, key <> "events" ->
                   dict_get out key = dict_get last_response key.
Proof.
  exists (last ds d1), (dict_set (last ds d1) "events" (PFrame stacked)).
  rewrite get_events_by_run. cbn [fst]. rewrite Hstacked.
  split.
  { cbn [answers]. rewrite Hfirst, Hlater. rewrite last_cons.
    clear. revert d1. induction ds as [|d l IH]; intros d1; [reflexivity|].
    cbn [map]. rewrite !last_cons. apply IH. }
  split; [reflexivity|]. split; [reflexivity|].
  split; [apply dict_get_set_same|]. split.
  - apply dict_keys_set_present.
    assert (Hall : forall d, In d (d1 :: ds) -> dict_get d "events" <> None).
    { clear - Hevents. revert Hevents. generalize (d1 :: ds) as l.
      intros l. revert tables.
      induction l as [|d l IH]; intros ts H d0 Hin; [contradiction|].
      destruct ts as [|t ts]; [discriminate|]. cbn [map] in H.
      inversion H as [[Hd Hl]]. destruct Hin as [<- | Hin].
      - congruence.
      - eapply IH; eauto. }
    apply Hall. apply last_In.
  - intros key Hkey. now apply dict_get_set_other.
Qed.

End PagerRun.

(** ** The server with 250 events *)

Lemma page_count_from_reported_per_page_witness :
  List.length
    (calls (snd (get_events_by paged_events "venue" (IdStrings ["9"])
                   default_per_page PNone (mkWorld [] []))))
  = 3%nat.
Proof.
  refine (proj1 (page_count_from_reported_per_page paged_events "venue"
                   (IdStrings ["9"]) default_per_page PNone (mkWorld [] [])
                   "9" (page_response 1) (page_meta 1) 250 100
                   [page_response 2; page_response 3]
                   [PFrame (page_events 1); PFrame (page_events 2);
                    PFrame (page_events 3)]
                   eq_refl eq_refl eq_refl eq_refl eq_refl _ eq_refl eq_refl
                   eq_refl eq_refl)).
  discriminate.
Defined.

Lemma later_pages_use_reported_per_page_witness :
  calls (snd (get_events_by paged_events "venue" (IdStrings ["9"])
                default_per_page PNone (mkWorld [] [])))
  = [Get_events (PDict [("venue.id", PStr "9"); ("per_page", PInt 1000);
                        ("page", PInt 1)]);
     Get_events (PDict [("venue.id", PStr "9"); ("per_page", PInt 100);
                        ("page", PInt 2)]);
     Get_events (PDict [("venue.id", PStr "9"); ("per_page", PInt 100);
                        ("page", PInt 3)])].
Proof.
  refine (proj1 (later_pages_use_reported_per_page paged_events "venue"
                   (IdStrings ["9"]) default_per_page PNone (mkWorld [] [])
                   "9" (page_response 1) (page_meta 1) 250 100
                   [page_response 2; page_response 3]
                   [PFrame (page_events 1); PFrame (page_events 2);
                    PFrame (page_events 3)]
                   eq_refl eq_refl eq_refl eq_refl eq_refl _ eq_refl eq_refl
                   eq_refl eq_refl)).
  discriminate.
Defined.

Lemma get_events_by_fetches_all_pages_witness :
  exists out,
    fst (get_events_by paged_events "venue" (IdStrings ["9"])
           default_per_page PNone (mkWorld [] []))
    = Ok (PDict out)
    /\ dict_get out "events"
       = Some (PFrame
                 (mkFrame ["id"; "type"] [0; 1; 0; 1; 0; 1]
                    [[PInt 2; PStr "concert"]; [PInt 3; PStr "nba"];
                     [PInt 4; PStr "concert"]; [PInt 5; PStr "nba"];
                     [PInt 6; PStr "concert"]; [PInt 7; PStr "nba"]])).
Proof.
  assert (Hnonzero : 100 <> 0) by discriminate.
  assert (Hcolumns : Forall (fun df => df_columns df = ["id"; "type"])
                       [page_events 1; page_events 2; page_events 3])
    by (repeat apply Forall_cons; try apply Forall_nil; reflexivity).
  destruct (get_events_by_fetches_all_pages paged_events "venue"
              (IdStrings ["9"]) default_per_page PNone (mkWorld [] [])
              "9" (page_response 1) (page_meta 1) 250 100
              [page_response 2; page_response 3]
              [PFrame (page_events 1); PFrame (page_events 2);
               PFrame (page_events 3)]
              eq_refl eq_refl eq_refl eq_refl eq_refl Hnonzero eq_refl eq_refl
              eq_refl eq_refl
              ["id"; "type"] [page_events 1; page_events 2; page_events 3]
              eq_refl Hcolumns)
    as (requests & _ & _ & _ & _ & out & Hout & Hevents).
  exists out. split; [exact Hout | exact Hevents].
Defined.

Lemma get_events_by_keeps_last_response_witness :
  exists out,
    fst (get_events_by paged_events "venue" (IdStrings ["9"])
           default_per_page PNone (mkWorld [] []))
    = Ok (PDict out)
    /\ dict_keys out = ["events"; "meta"]
    /\ dict_get out "meta" = Some (PDict (page_meta 3)).
Proof.
  assert (Hnonzero : 100 <> 0) by discriminate.
  destruct (get_events_by_keeps_last_response paged_events "venue"
              (IdStrings ["9"]) default_per_page PNone (mkWorld [] [])
              "9" (page_response 1) (page_meta 1) 250 100
              [page_response 2; page_response 3]
              [PFrame (page_events 1); PFrame (page_events 2);
               PFrame (page_events 3)]
              eq_refl eq_refl eq_refl eq_refl eq_refl Hnonzero eq_refl eq_refl
              eq_refl eq_refl
              (mkFrame ["id"; "type"] [0; 1; 0; 1; 0; 1]
                 (df_data (page_events 1) ++ df_data (page_events 2)
                    ++ df_data (page_events 3)))
              eq_refl)
    as (last_response & out & Hlast & Hout & _ & _ & Hkeys & Hother).
  exists out. split; [exact Hout|].
  assert (Hresponse : last_response = page_response 3)
    by (inversion Hlast; reflexivity).
  subst last_response. split; [exact Hkeys|].
  apply (Hother "meta"). discriminate.
Defined.

(** ** Further runs *)

(** With [total = 0] the first page is the only one asked for, and the
    result has no rows. *)
Example get_events_by_no_events :
  get_events_by no_events "performers" (IdStrings ["5"; "6"])
    default_per_page (PStr "concert") (mkWorld [] [])
  = (Ok (PDict [("events", PFrame (mkFrame ["id"; "type"] [] []));
                ("meta", PDict [("total", PInt 0); ("per_page", PInt 100);
                                ("page", PInt 1)])]),
     mkWorld [Get_events (PDict [("type", PStr "concert");
                                 ("performers.id", PStr "5,6");
                                 ("per_page", PInt 1000);
                                 ("page", PInt 1)])] []).
Proof. reflexivity. Qed.

(** A column of ids is joined the same way as a list of strings. *)
Example get_by_id_column :
  snd (get_by_id error_transport "venues"
         (IdSeries (mkSeries [0; 1; 2] [PInt 10; PInt 77; PInt (-3)]))
         (mkWorld [] []))
  = mkWorld [Get_venues (PDict [("id", PStr "10,77,-3")])] [].
Proof. reflexivity. Qed.

(** A kind [get_by_id] has no lookup for is a [KeyError], before any
    request. *)
Example get_by_id_unknown_kind :
  get_by_id error_transport "stats" (IdStrings ["1"]) (mkWorld [] [])
  = (Raise KeyError, mkWorld [] []).
Proof. reflexivity. Qed.

(** A configured column that no record has is a [KeyError] of the column
    selection, which [_send_request] lets through. *)
Example send_request_missing_column :
  fst (_send_request performers_transport (mkSG [] ["id"; "genre"] [] [])
         "performers" PNone PNone (mkWorld [] []))
  = Raise KeyError.
Proof. reflexivity. Qed.

(** The resolver reads the answer of a search as a table: on a search
    that answers with a response dict it raises [AttributeError]. *)
Example get_venue_ids_needs_table :
  fst (get_venue_ids error_transport ["Madison Square Garden"]
         (mkWorld [] []))
  = Raise AttributeError.
Proof. reflexivity. Qed.

(** An exception of a search other than [ApiException] ends the run at
    that name: the names after it are not searched. *)
Example get_venue_ids_other_exception :
  get_venue_ids (fun _ _ => Raise (OtherException "URLError"))
    ["Madison Square Garden"; "NoSuchVenueXYZ"] (mkWorld [] [])
  = (Raise (OtherException "URLError"),
     mkWorld [venue_search "Madison Square Garden"] []).
Proof. reflexivity. Qed.

(** ** More on the projector *)

(** X1.  Whatever the transport answers and however the projection ends,
    [_send_request] calls the transport exactly once, with its own three
    arguments, and prints nothing. *)
Theorem send_request_one_call
        (Scalpyr : list base_call -> base_call -> res pyval)
        (sg : SeatGeekDataStructure) (req_type : string)
        (req_args req_id : pyval) (w : world) :
  snd (_send_request Scalpyr sg req_type req_args req_id w)
  = mkWorld (calls w ++ [Super_send_request req_type req_args req_id])
      (stdout w).
Proof.
  unfold _send_request, bind, call, lift, try_except, raise.
  destruct (Scalpyr (calls w) (Super_send_request req_type req_args req_id))
    as [response|e]; [|reflexivity].
  destruct (not_in_keys response req_type) as [[|]|e]; try reflexivity.
  destruct (getattr_sg sg req_type) as [columns|e];
    [|destruct e; reflexivity].
  destruct (getitem response req_type) as [records|e]; [|reflexivity].
  destruct (pd.from_dict records) as [df|e]; [|reflexivity].
  destruct (getitem_columns df columns) as [df'|e]; [|reflexivity].
  destruct (setitem response req_type (PFrame df')); reflexivity.
Qed.

Lemma getattr_sg_raises (sg : SeatGeekDataStructure) (req_type : string)
      (e : exn) :
  getattr_sg sg req_type = Raise e -> e = AttributeError.
Proof.
  unfold getattr_sg.
  repeat match goal with
         | |- context [if ?b then _ else _] => destruct b
         end; congruence.
Qed.

Lemma from_dict_raises (data : pyval) (e : exn) :
  pd.from_dict data = Raise e -> e = OutsideModel \/ e = ValueError.
Proof.
  unfold pd.from_dict.
  destruct data as [| | | | |l| |]; try (intros H; inversion H; auto; fail).
  destruct (as_records l); intros H; inversion H; auto.
Qed.

Lemma getitem_columns_raises (df : DataFrame) (columns : list string)
      (e : exn) :
  getitem_columns df columns = Raise e -> e = KeyError.
Proof.
  unfold getitem_columns. destruct (forallb _ columns); congruence.
Qed.

(** X2.  [ApiException] leaves [_send_request] in two ways only: the
    transport raised it, or the transport answered with a dict that lacks
    the requested key, and that dict is what the exception carries.  A
    response that has the key never ends in [ApiException]. *)
Theorem send_request_api_exception_only_for_missing_key
        (Scalpyr : list base_call -> base_call -> res pyval)
        (sg : SeatGeekDataStructure) (req_type : string)
        (req_args req_id : pyval) (w : world) (carried : pyval) :
  fst (_send_request Scalpyr sg req_type req_args req_id w)
  = Raise (ApiException carried) ->
  Scalpyr (calls w) (Super_send_request req_type req_args req_id)
  = Raise (ApiException carried)
  \/ exists d, carried = PDict d
               /\ Scalpyr (calls w)
                    (Super_send_request req_type req_args req_id)
                  = Ok (PDict d)
               /\ ~ In req_type (dict_keys d).
Proof.
  unfold _send_request, bind, call, lift, try_except, raise.
  destruct (Scalpyr (calls w) (Super_send_request req_type req_args req_id))
    as [response|e]; cbn [fst].
  2:{ intros H. left. exact H. }
  destruct response as [| | | | | |d|df]; cbn; try discriminate.
  destruct (mem req_type (dict_keys d)) eqn:Hmem; cbn.
  - destruct (getattr_sg sg req_type) as [columns|e] eqn:Hattr.
    + destruct (dict_get d req_type) as [records|]; cbn; [|discriminate].
      destruct (pd.from_dict records) as [df|e] eqn:Hfrom; cbn.
      * destruct (getitem_columns df columns) as [df'|e] eqn:Hsel; cbn;
          [discriminate|].
        apply getitem_columns_raises in Hsel. subst e. discriminate.
      * apply from_dict_raises in Hfrom. destruct Hfrom; subst e; discriminate.
    + apply getattr_sg_raises in Hattr. subst e. cbn. discriminate.
  - intros H. inversion H. right. exists d.
    split; [reflexivity|]. split; [reflexivity|]. now apply mem_false.
Qed.

Lemma send_request_api_exception_only_for_missing_key_witness :
  exists d,
    error_transport [] (Super_send_request "events" PNone PNone)
    = Ok (PDict d)
    /\ ~ In "events" (dict_keys d).
Proof.
  destruct (send_request_api_exception_only_for_missing_key error_transport
              (init None) "events" PNone PNone (mkWorld [] [])
              (PDict [("error", PStr "bad request")]) eq_refl)
    as [H | [d [_ [Hd Habs]]]]; [discriminate H|].
  exists d. split; [exact Hd | exact Habs].
Defined.

(** X3.  When the requested kind maps to a list of records and some
    configured column is a key of none of them, the column selection
    raises [KeyError] and [_send_request] lets it through; it is not turned
    into [ApiException].  A list without records is the plainest case:
    with any column configured, an empty answer is a [KeyError]. *)
Theorem send_request_unresolved_column
        (Scalpyr : list base_call -> base_call -> res pyval)
        (sg : SeatGeekDataStructure) (req_type : string)
        (req_args req_id : pyval) (w : world)
        (d : dict) (l : list pyval) (rs : list dict)
        (columns : list string) (c : string) :
  Scalpyr (calls w) (Super_send_request req_type req_args req_id)
  = Ok (PDict d) ->
  dict_get d req_type = Some (PList l) ->
  as_records l = Some rs ->
  getattr_sg sg req_type = Ok columns ->
  In c columns ->
  (forall r, In r rs -> ~ In c (dict_keys r)) ->
  fst (_send_request Scalpyr sg req_type req_args req_id w) = Raise KeyError.
Proof.
  intros Hresp Hkey Hrec Hattr Hc Hnone.
  unfold _send_request, bind, call, lift, try_except, raise.
  rewrite Hresp. cbn.
  assert (Hmem : mem req_type (dict_keys d) = true).
  { apply dict_get_mem. congruence. }
  rewrite Hmem. cbn. rewrite Hattr, Hkey. cbn. rewrite Hrec.
  unfold getitem_columns. cbn [df_columns].
  assert (Hall : forallb (fun c' => mem c' (uniq (flat_map dict_keys rs)))
                   columns = false).
  { apply not_true_is_false. intros Hall.
    rewrite forallb_forall in Hall. specialize (Hall c Hc).
    apply mem_In, uniq_In, in_flat_map in Hall.
    destruct Hall as [r [Hr Hk]]. exact (Hnone r Hr Hk). }
  rewrite Hall. reflexivity.
Qed.

Lemma send_request_unresolved_column_witness :
  fst (_send_request empty_transport (init None) "performers" PNone PNone
         (mkWorld [] []))
  = Raise KeyError.
Proof.
  refine (send_request_unresolved_column empty_transport (init None)
            "performers" PNone PNone (mkWorld [] []) _ [] [] _ "name"
            eq_refl eq_refl eq_refl eq_refl _ _).
  - cbn. tauto.
  - intros r [].
Defined.

(** X4.  When [_send_request] returns for one of the schema's four kinds,
    the transport answered with a dict that has the requested key, and the
    result is that dict with a table put under the key: the keys are the
    same, every other key keeps its value, and the labels of the table's
    columns are those of the configured list. *)
Theorem send_request_returns
        (Scalpyr : list base_call -> base_call -> res pyval)
        (sg : SeatGeekDataStructure) (req_type : string)
        (req_args req_id : pyval) (w : world) (out : pyval) :
  In req_type ["events"; "performers"; "stats"; "venues"] ->
  fst (_send_request Scalpyr sg req_type req_args req_id w) = Ok out ->
  exists d df columns,
    Scalpyr (calls w) (Super_send_request req_type req_args req_id)
    = Ok (PDict d)
    /\ getattr_sg sg req_type = Ok columns
    /\ out = PDict (dict_set d req_type (PFrame df))
    /\ dict_keys (dict_set d req_type (PFrame df)) = dict_keys d
    /\ (forall key, key <> req_type ->
                    dict_get (dict_set d req_type (PFrame df)) key
                    = dict_get d key)
    /\ (forall c, In c (df_columns df) <-> In c columns).
Proof.
  intros _.
  unfold _send_request, bind, call, lift, try_except, raise.
  destruct (Scalpyr (calls w) (Super_send_request req_type req_args req_id))
    as [response|e]; cbn [fst]; [|discriminate].
  destruct response as [| | | | | |d|df0]; cbn; try discriminate.
  destruct (mem req_type (dict_keys d)) eqn:Hmem; cbn; [|discriminate].
  destruct (getattr_sg sg req_type) as [columns|e] eqn:Hattr;
    [|destruct e; discriminate].
  destruct (dict_get d req_type) as [records|] eqn:Hkey; cbn; [|discriminate].
  destruct (pd.from_dict records) as [df|e]; cbn; [|discriminate].
  unfold getitem_columns.
  destruct (forallb (fun c => mem c (df_columns df)) columns) eqn:Hall;
    cbn; [|discriminate].
  intros H. inversion H. eexists d, _, columns.
  split; [reflexivity|]. split; [reflexivity|].
  split; [reflexivity|]. split.
  { apply dict_keys_set_present. congruence. }
  split.
  { intros key Hne. now apply dict_get_set_other. }
  intros c. cbn [df_columns]. rewrite in_flat_map.
  rewrite forallb_forall in Hall. split.
  - intros [c' [Hc' Hin]]. apply filter_In in Hin.
    destruct Hin as [_ He]. apply String.eqb_eq in He. now subst.
  - intros Hc. exists c. split; [exact Hc|]. apply filter_In.
    split; [apply mem_In; auto | apply String.eqb_refl].
Qed.

Lemma send_request_returns_witness :
  exists d df,
    fst (_send_request performers_transport (init None) "performers"
           PNone PNone (mkWorld [] []))
    = Ok (PDict (dict_set d "performers" (PFrame df)))
    /\ dict_keys (dict_set d "performers" (PFrame df))
       = ["performers"; "meta"].
Proof.
  destruct (send_request_returns performers_transport (init None)
              "performers" PNone PNone (mkWorld [] []) _
              (or_intror (or_introl eq_refl)) eq_refl)
    as (d & df & columns & Hd & _ & Hout & Hkeys & _).
  exists d, df. split.
  - rewrite <- Hout. reflexivity.
  - rewrite Hkeys. inversion Hd. reflexivity.
Defined.

(** ** More on the lookups by id *)

(** X5.  For a kind other than [events], [performers] and [venues],
    [get_by_id] raises [KeyError] when it picks the lookup, before any
    request is made. *)
Theorem get_by_id_unknown_kind_no_request
        (Scalpyr : list base_call -> base_call -> res pyval)
        (req_type : string) (ids : IdList) (s : string) (w : world) :
  ~ In req_type ["events"; "performers"; "venues"] ->
  join_ids ids = Ok s ->
  get_by_id Scalpyr req_type ids w = (Raise KeyError, w).
Proof.
  intros Hkind Hjoin. unfold get_by_id, bind, lift. rewrite Hjoin.
  cbn [find fst snd].
  destruct (String.eqb "events" req_type) eqn:H1.
  { apply String.eqb_eq in H1. subst. cbn in Hkind. tauto. }
  destruct (String.eqb "performers" req_type) eqn:H2.
  { apply String.eqb_eq in H2. subst. cbn in Hkind. tauto. }
  destruct (String.eqb "venues" req_type) eqn:H3.
  { apply String.eqb_eq in H3. subst. cbn in Hkind. tauto. }
  reflexivity.
Qed.

Lemma get_by_id_unknown_kind_no_request_witness :
  get_by_id error_transport "taxonomies" (IdStrings ["3"; "4"])
    (mkWorld [] [])
  = (Raise KeyError, mkWorld [] []).
Proof.
  refine (get_by_id_unknown_kind_no_request error_transport "taxonomies"
            (IdStrings ["3"; "4"]) "3,4" (mkWorld [] []) _ eq_refl).
  cbn. intros [H | [H | [H | []]]]; discriminate H.
Defined.

Lemma map_res_py_str_strings (l : list string) :
  map_res py_str (map PStr l) = Ok l.
Proof.
  induction l as [|a l IH]; cbn; [reflexivity|]. now rewrite IH.
Qed.

(** X6.  The two shapes of an id list agree: a column whose values are the
    strings of a list is joined into the same filter value as the list
    itself, whatever its row labels, so [get_by_id] and [get_events_by] run
    the same on both. *)
Theorem id_column_as_id_list
        (Scalpyr : list base_call -> base_call -> res pyval)
        (req_type : string) (labels : list Z) (l : list string)
        (per_page event_type : pyval) (w : world) :
  join_ids (IdSeries (mkSeries labels (map PStr l))) = join_ids (IdStrings l)
  /\ get_by_id Scalpyr req_type (IdSeries (mkSeries labels (map PStr l))) w
     = get_by_id Scalpyr req_type (IdStrings l) w
  /\ get_events_by Scalpyr req_type (IdSeries (mkSeries labels (map PStr l)))
       per_page event_type w
     = get_events_by Scalpyr req_type (IdStrings l) per_page event_type w.
Proof.
  assert (Hjoin : join_ids (IdSeries (mkSeries labels (map PStr l)))
                  = join_ids (IdStrings l)).
  { cbn. now rewrite map_res_py_str_strings. }
  split; [exact Hjoin|]. split.
  - unfold get_by_id. now rewrite Hjoin.
  - unfold get_events_by. now rewrite Hjoin.
Qed.

Lemma lookup_field_not_reserved (req_type : string) :
  lookup_field_of req_type <> "type"
  /\ lookup_field_of req_type <> "per_page"
  /\ lookup_field_of req_type <> "page".
Proof.
  unfold lookup_field_of.
  destruct (String.eqb req_type "events");
    [repeat split; discriminate|].
  repeat split; intros H;
    repeat (destruct req_type as [|? req_type]; cbn in H;
            [discriminate H | injection H as _ H]);
    destruct req_type; discriminate H.
Qed.

Lemma dict_set_fresh (d : dict) (k : string) (v : pyval) :
  ~ In k (dict_keys d) -> dict_set d k v = d ++ [(k, v)].
Proof.
  induction d as [|[k' v'] d IH]; cbn; intros H; [reflexivity|].
  destruct (String.eqb k' k) eqn:He.
  - apply String.eqb_eq in He. tauto.
  - f_equal. apply IH. tauto.
Qed.

(** X7.  The filter [get_events_by] sends for a page has, besides
    [per_page] and [page], one key for the ids, [id] for the kind [events]
    and the kind followed by [.id] for any other, and a [type] entry
    exactly when an event type is given; the key for the ids never
    collides with the other three, so no entry overwrites another. *)
Theorem get_events_by_filter
        (Scalpyr : list base_call -> base_call -> res pyval)
        (req_type : string) (ids per_page event_type : pyval) (page_num : Z) :
  _get_events_by Scalpyr (lookup_field_of req_type) ids per_page
    (PInt page_num) event_type
  = call Scalpyr
      (Get_events
         (PDict ((if is_None event_type then [] else [("type", event_type)])
                   ++ [(lookup_field_of req_type, ids);
                       ("per_page", per_page);
                       ("page", PInt page_num)])))
  /\ lookup_field_of "events" = "id"
  /\ (req_type <> "events" ->
      lookup_field_of req_type = (req_type ++ ".id")%string).
Proof.
  destruct (lookup_field_not_reserved req_type) as (Htype & Hper & Hpage).
  split; [|split].
  - unfold _get_events_by. cbv zeta.
    set (req := if is_None event_type then [] else [("type", event_type)]).
    assert (Hkeys : forall k, In k (dict_keys req) -> k = "type").
    { intros k. unfold req. destruct (is_None event_type); cbn; intuition. }
    rewrite (dict_set_fresh req).
    2:{ intros Hin. apply Hkeys in Hin. contradiction. }
    rewrite (dict_set_fresh (req ++ [(lookup_field_of req_type, ids)])
               "per_page").
    2:{ unfold dict_keys. rewrite map_app, in_app_iff. cbn.
        intros [Hin | [Heq | []]].
        - apply Hkeys in Hin. discriminate Hin.
        - contradiction. }
    rewrite dict_set_fresh.
    2:{ unfold dict_keys. rewrite !map_app, !in_app_iff. cbn.
        intros [[Hin | [Heq | []]] | [Heq | []]].
        - apply Hkeys in Hin. discriminate Hin.
        - contradiction.
        - discriminate Heq. }
    rewrite <- !app_assoc. reflexivity.
  - reflexivity.
  - intros Hne. unfold lookup_field_of.
    apply String.eqb_neq in Hne. now rewrite Hne.
Qed.

(** ** More on the pager *)

Lemma pages_from_snoc (page_num : Z) (n : nat) :
  pages_from page_num (S n) = pages_from page_num n ++ [page_num + Z.of_nat n].
Proof.
  unfold pages_from. rewrite seq_S, map_app. reflexivity.
Qed.

Section PagerLog.

Variable Scalpyr : list base_call -> base_call -> res pyval.
Variables (lookup_field : string) (ids per_page event_type : pyval)
          (total_pages : Z).

(** Whatever the pages answer, the loop asks for consecutive pages and
    prints nothing. *)
Lemma pages_loop_log (fuel : nat) :
  forall (page_num : Z) (resp : pyval) (events_tables : list pyval)
         (w : world),
  exists k,
    (k <= fuel)%nat
    /\ snd (pages_loop Scalpyr fuel lookup_field ids per_page event_type
              total_pages page_num resp events_tables w)
       = mkWorld (calls w
                    ++ map (page_request lookup_field ids per_page event_type)
                         (pages_from page_num k))
           (stdout w).
Proof.
  induction fuel as [|fuel IH]; intros page_num resp events_tables w.
  - exists 0%nat. split; [lia|]. cbn. rewrite app_nil_r. now destruct w.
  - cbn [pages_loop]. destruct (page_num <=? total_pages).
    + unfold bind at 1. rewrite get_events_by_request. unfold call.
      destruct (Scalpyr (calls w)
                  (page_request lookup_field ids per_page event_type page_num))
        as [resp'|e].
      * run_lift.
        destruct (getitem resp' "events") as [table|e].
        -- destruct (IH (page_num + 1) resp' (events_tables ++ [table])
                       (mkWorld (calls w
                                   ++ [page_request lookup_field ids per_page
                                         event_type page_num])
                          (stdout w))) as [k [Hk Hlog]].
           exists (S k). split; [lia|]. rewrite Hlog.
           rewrite pages_from_S. cbn [calls stdout map].
           now rewrite <- app_assoc.
        -- exists 1%nat. split; [lia|]. rewrite pages_from_S. reflexivity.
      * exists 1%nat. split; [lia|]. rewrite pages_from_S. reflexivity.
    + exists 0%nat. split; [lia|]. cbn. rewrite app_nil_r. now destruct w.
Qed.

(** A run of the loop in which the pages answer until one raises. *)
Lemma pages_loop_abort (n : nat) :
  forall (fuel : nat) (page_num : Z) (resp : pyval)
         (events_tables : list pyval) (w : world) (ds : list dict)
         (tables : list pyval) (e : exn),
    (n < fuel)%nat ->
    fuel = Z.to_nat (total_pages + 1 - page_num) ->
    answers Scalpyr (calls w)
      (map (page_request lookup_field ids per_page event_type)
         (pages_from page_num n))
    = map (fun d => Ok (PDict d)) ds ->
    map (fun d => dict_get d "events") ds = map Some tables ->
    Scalpyr
      (calls w ++ map (page_request lookup_field ids per_page event_type)
                    (pages_from page_num n))
      (page_request lookup_field ids per_page event_type
         (page_num + Z.of_nat n))
    = Raise e ->
    pages_loop Scalpyr fuel lookup_field ids per_page event_type
      total_pages page_num resp events_tables w
    = (Raise e,
       mkWorld (calls w
                  ++ map (page_request lookup_field ids per_page event_type)
                       (pages_from page_num (S n)))
         (stdout w)).
Proof.
  induction n as [|n IH];
    intros fuel page_num resp events_tables w ds tables e Hlt Hfuel Hans Hev
           Hraise.
  - destruct fuel as [|fuel]; [lia|]. cbn [pages_loop].
    assert (Hle : (page_num <=? total_pages) = true)
      by (apply Z.leb_le; lia).
    rewrite Hle. unfold bind at 1. rewrite get_events_by_request.
    unfold call. cbn [pages_from seq map] in Hraise.
    rewrite app_nil_r, Z.add_0_r in Hraise. rewrite Hraise.
    rewrite pages_from_S. reflexivity.
  - destruct fuel as [|fuel]; [lia|]. cbn [pages_loop].
    assert (Hle : (page_num <=? total_pages) = true)
      by (apply Z.leb_le; lia).
    rewrite Hle. rewrite pages_from_S in Hans, Hraise.
    cbn [map answers] in Hans.
    destruct ds as [|d ds]; [discriminate|].
    destruct tables as [|table tables]; [discriminate|].
    cbn [map] in Hans, Hev, Hraise. inversion Hans as [[Hd Hds]].
    inversion Hev as [[Htable Htables]].
    unfold bind at 1. rewrite get_events_by_request. unfold call.
    rewrite Hd. run_lift; unfold getitem. rewrite Htable.
    rewrite (IH fuel (page_num + 1) (PDict d) (events_tables ++ [table])
               (mkWorld (calls w
                           ++ [page_request lookup_field ids per_page
                                 event_type page_num])
                  (stdout w)) ds tables e);
      [| lia | lia | exact Hds | exact Htables |].
    + cbn [calls stdout].
      rewrite (pages_from_S page_num (S n)). cbn [map].
      now rewrite <- app_assoc.
    + cbn [calls]. rewrite <- app_assoc. cbn [app].
      replace (page_num + 1 + Z.of_nat n) with (page_num + Z.of_nat (S n))
        by lia.
      exact Hraise.
Qed.

End PagerLog.

(** X8.  Whatever the server answers, the requests of [get_events_by] are
    one for page 1 with the page size passed in, followed by requests for
    the pages 2, 3, ... without gap or repeat, all with one page size and
    the same ids and event type; and [get_events_by] prints nothing. *)
Theorem get_events_by_requests_consecutive_pages
        (Scalpyr : list base_call -> base_call -> res pyval)
        (req_type : string) (ids : IdList) (per_page event_type : pyval)
        (w : world) (s : string) :
  join_ids ids = Ok s ->
  exists (k : nat) (later_per_page : pyval),
    snd (get_events_by Scalpyr req_type ids per_page event_type w)
    = mkWorld
        (calls w
           ++ page_request (lookup_field_of req_type) (PStr s) per_page
                event_type 1
           :: map (page_request (lookup_field_of req_type) (PStr s)
                     later_per_page event_type)
                (pages_from 2 k))
        (stdout w).
Proof.
  intros Hids. unfold get_events_by. run_lift. rewrite Hids.
  fold (lookup_field_of req_type).
  unfold bind at 1. rewrite get_events_by_request. unfold call.
  set (first := page_request (lookup_field_of req_type) (PStr s) per_page
                  event_type 1).
  assert (Hstop : forall (r : res pyval),
             exists (k : nat) (pp : pyval),
               mkWorld (calls w ++ [first]) (stdout w)
               = mkWorld
                   (calls w
                      ++ first
                      :: map (page_request (lookup_field_of req_type) (PStr s)
                                pp event_type) (pages_from 2 k))
                   (stdout w)).
  { intros _. exists 0%nat, PNone. reflexivity. }
  destruct (Scalpyr (calls w) first) as [resp|e]; [|apply (Hstop (Raise e))].
  run_lift. destruct (getitem resp "meta") as [meta|e];
    [|apply (Hstop (Raise e))].
  run_lift. destruct (getitem meta "total") as [total|e];
    [|apply (Hstop (Raise e))].
  run_lift. run_lift.
  destruct (getitem meta "per_page") as [reported|e];
    [|apply (Hstop (Raise e))].
  run_lift. destruct (math_ceil_div total reported) as [total_pages|e];
    [|apply (Hstop (Raise e))].
  run_lift. destruct (getitem resp "events") as [table|e];
    [|apply (Hstop (Raise e))].
  unfold bind at 1.
  destruct (pages_loop_log Scalpyr (lookup_field_of req_type) (PStr s)
              reported event_type total_pages
              (Z.to_nat (total_pages + 1 - 2)) 2 resp [table]
              (mkWorld (calls w ++ [first]) (stdout w))) as [k [_ Hlog]].
  exists k, reported.
  destruct (pages_loop Scalpyr (Z.to_nat (total_pages + 1 - 2))
              (lookup_field_of req_type) (PStr s) reported event_type
              total_pages 2 resp [table]
              (mkWorld (calls w ++ [first]) (stdout w)))
    as [[r|e] w'] eqn:Hloop; cbn [snd] in Hlog; subst w'.
  - unfold bind, lift. cbn [calls stdout].
    rewrite <- app_assoc. cbn [app].
    destruct (pd.concat (snd r) false) as [df|e]; cbn [snd].
    + destruct (setitem (fst r) "events" (PFrame df)); reflexivity.
    + reflexivity.
  - cbn [snd calls stdout]. now rewrite <- app_assoc.
Qed.

Lemma get_events_by_requests_consecutive_pages_witness :
  exists (k : nat) (later_per_page : pyval),
    calls (snd (get_events_by flaky_events "venue" (IdStrings ["9"])
                  default_per_page PNone (mkWorld [] [])))
    = page_request "venue.id" (PStr "9") default_per_page PNone 1
      :: map (page_request "venue.id" (PStr "9") later_per_page PNone)
           (pages_from 2 k).
Proof.
  destruct (get_events_by_requests_consecutive_pages flaky_events "venue"
              (IdStrings ["9"]) default_per_page PNone (mkWorld [] []) "9"
              eq_refl) as (k & pp & H).
  exists k, pp. rewrite H. reflexivity.
Defined.

(** X9.  A page that raises ends [get_events_by] with that exception:
    when the first page reports a total and a page size that a float holds
    exactly, it and the [n] pages after it answer, more pages remain and
    the request for the next one raises, the exception leaves
    [get_events_by], no table is returned for the pages fetched so far,
    and no further page is asked for. *)
Theorem get_events_by_aborts_on_failed_page
        (Scalpyr : list base_call -> base_call -> res pyval)
        (req_type : string) (ids : IdList) (per_page event_type : pyval)
        (w : world) (s : string) (d1 meta : dict) (total effective : Z)
        (n : nat) (ds : list dict) (tables : list pyval) (e : exn) :
  let request :=
    page_request (lookup_field_of req_type) (PStr s) (PInt effective)
      event_type in
  let first_request :=
    page_request (lookup_field_of req_type) (PStr s) per_page event_type 1 in
  join_ids ids = Ok s ->
  Scalpyr (calls w) first_request = Ok (PDict d1) ->
  dict_get d1 "meta" = Some (PDict meta) ->
  dict_get meta "total" = Some (PInt total) ->
  dict_get meta "per_page" = Some (PInt effective) ->
  effective <> 0 ->
  Z.abs total < float_exact_bound ->
  Z.abs effective < float_exact_bound ->
  (n < Z.to_nat (ceil_div total effective - 1))%nat ->
  answers Scalpyr (calls w ++ [first_request]) (map request (pages_from 2 n))
  = map (fun d => Ok (PDict d)) ds ->
  map (fun d => dict_get d "events") (d1 :: ds) = map Some tables ->
  Scalpyr (calls w ++ first_request :: map request (pages_from 2 n))
    (request (2 + Z.of_nat n))
  = Raise e ->
  get_events_by Scalpyr req_type ids per_page event_type w
  = (Raise e,
     mkWorld (calls w ++ first_request :: map request (pages_from 2 (S n)))
       (stdout w)).
Proof.
  intros request first_request Hids Hfirst Hmeta Htotal Hper Hnonzero
         Htotal_exact Heffective_exact Hn Hans Hev Hraise.
  destruct tables as [|table tables]; [discriminate|].
  cbn [map] in Hev. inversion Hev as [[Htable Hrest]].
  unfold get_events_by. run_lift. rewrite Hids.
  fold (lookup_field_of req_type).
  unfold bind at 1. rewrite get_events_by_request. unfold call.
  fold first_request. rewrite Hfirst.
  run_lift; unfold getitem at 1. rewrite Hmeta.
  run_lift; unfold getitem at 1. rewrite Htotal.
  run_lift; unfold getitem at 1. rewrite Hmeta.
  run_lift; unfold getitem at 1. rewrite Hper.
  run_lift.
  rewrite (math_ceil_div_ints _ _ Hnonzero Htotal_exact Heffective_exact).
  run_lift; unfold getitem at 1. rewrite Htable.
  unfold bind at 1.
  rewrite (pages_loop_abort Scalpyr (lookup_field_of req_type) (PStr s)
             (PInt effective) event_type (ceil_div total effective) n
             (Z.to_nat (ceil_div total effective + 1 - 2)) 2 (PDict d1)
             [table] (mkWorld (calls w ++ [first_request]) (stdout w))
             ds tables e);
    [| lia | f_equal; lia | exact Hans | exact Hrest |].
  - cbn [calls stdout]. fold request. rewrite <- app_assoc. reflexivity.
  - cbn [calls]. fold request. rewrite <- app_assoc. exact Hraise.
Qed.

Lemma get_events_by_aborts_on_failed_page_witness :
  get_events_by flaky_events "venue" (IdStrings ["9"]) default_per_page
    PNone (mkWorld [] [])
  = (Raise (OtherException "HTTPError"),
     mkWorld [page_request "venue.id" (PStr "9") (PInt 1000) PNone 1;
              page_request "venue.id" (PStr "9") (PInt 100) PNone 2] []).
Proof.
  assert (Hnonzero : 100 <> 0) by discriminate.
  assert (Hn : (0 < Z.to_nat (ceil_div 250 100 - 1))%nat)
    by (vm_compute; lia).
  exact (get_events_by_aborts_on_failed_page flaky_events "venue"
           (IdStrings ["9"]) default_per_page PNone (mkWorld [] []) "9"
           (page_response 1) (page_meta 1) 250 100 0 []
           [PFrame (page_events 1)] (OtherException "HTTPError")
           eq_refl eq_refl eq_refl eq_refl eq_refl Hnonzero
           eq_refl eq_refl Hn eq_refl eq_refl eq_refl).
Defined.

(** X10.  A first response that reports a page size of zero ends
    [get_events_by] in [ZeroDivisionError], after that one request; the
    events of the response are not returned. *)
Theorem get_events_by_zero_per_page
        (Scalpyr : list base_call -> base_call -> res pyval)
        (req_type : string) (ids : IdList) (per_page event_type : pyval)
        (w : world) (s : string) (d1 meta : dict) (total : Z) :
  let first_request :=
    page_request (lookup_field_of req_type) (PStr s) per_page event_type 1 in
  join_ids ids = Ok s ->
  Scalpyr (calls w) first_request = Ok (PDict d1) ->
  dict_get d1 "meta" = Some (PDict meta) ->
  dict_get meta "total" = Some (PInt total) ->
  dict_get meta "per_page" = Some (PInt 0) ->
  get_events_by Scalpyr req_type ids per_page event_type w
  = (Raise ZeroDivisionError,
     mkWorld (calls w ++ [first_request]) (stdout w)).
Proof.
  intros first_request Hids Hfirst Hmeta Htotal Hper.
  unfold get_events_by. run_lift. rewrite Hids.
  fold (lookup_field_of req_type).
  unfold bind at 1. rewrite get_events_by_request. unfold call.
  fold first_request. rewrite Hfirst.
  run_lift; unfold getitem at 1. rewrite Hmeta.
  run_lift; unfold getitem at 1. rewrite Htotal.
  run_lift; unfold getitem at 1. rewrite Hmeta.
  run_lift; unfold getitem at 1. rewrite Hper.
  reflexivity.
Qed.

Lemma get_events_by_zero_per_page_witness :
  get_events_by zero_per_page "events" (IdStrings ["1"; "2"])
    default_per_page PNone (mkWorld [] [])
  = (Raise ZeroDivisionError,
     mkWorld [page_request "id" (PStr "1,2") (PInt 1000) PNone 1] []).
Proof.
  exact (get_events_by_zero_per_page zero_per_page "events"
           (IdStrings ["1"; "2"]) default_per_page PNone (mkWorld [] [])
           "1,2" _ _ 5 eq_refl eq_refl eq_refl eq_refl eq_refl).
Defined.

(** X11.  A first response without a [meta] entry ends [get_events_by] in
    [KeyError], after that one request, whether or not it holds events. *)
Theorem get_events_by_missing_meta
        (Scalpyr : list base_call -> base_call -> res pyval)
        (req_type : string) (ids : IdList) (per_page event_type : pyval)
        (w : world) (s : string) (d1 : dict) :
  let first_request :=
    page_request (lookup_field_of req_type) (PStr s) per_page event_type 1 in
  join_ids ids = Ok s ->
  Scalpyr (calls w) first_request = Ok (PDict d1) ->
  ~ In "meta" (dict_keys d1) ->
  get_events_by Scalpyr req_type ids per_page event_type w
  = (Raise KeyError, mkWorld (calls w ++ [first_request]) (stdout w)).
Proof.
  intros first_request Hids Hfirst Hmeta.
  assert (Hnone : dict_get d1 "meta" = None).
  { apply mem_false in Hmeta.
    destruct (dict_get d1 "meta") eqn:Hget; [|reflexivity].
    assert (Hm : mem "meta" (dict_keys d1) = true)
      by (apply dict_get_mem; congruence).
    congruence. }
  unfold get_events_by. run_lift. rewrite Hids.
  fold (lookup_field_of req_type).
  unfold bind at 1. rewrite get_events_by_request. unfold call.
  fold first_request. rewrite Hfirst.
  run_lift; unfold getitem at 1. rewrite Hnone. reflexivity.
Qed.

Lemma get_events_by_missing_meta_witness :
  get_events_by no_meta "performers" (IdStrings ["5"]) default_per_page
    PNone (mkWorld [] [])
  = (Raise KeyError,
     mkWorld [page_request "performers.id" (PStr "5") (PInt 1000) PNone 1] []).
Proof.
  refine (get_events_by_missing_meta no_meta "performers" (IdStrings ["5"])
            default_per_page PNone (mkWorld [] []) "5" _ eq_refl eq_refl _).
  cbn. intros [H | []]. discriminate H.
Defined.

Lemma dict_set_same (d : dict) (k : string) (v : pyval) :
  dict_get d k = Some v -> dict_set d k v = d.
Proof.
  induction d as [|[k' v'] d IH]; cbn; [discriminate|].
  destruct (String.eqb k' k).
  - intros H. now inversion H.
  - intros H. f_equal. now apply IH.
Qed.

Lemma ceil_div_single (total effective : Z) :
  0 < effective -> total <= effective -> ceil_div total effective <= 1.
Proof.
  intros Hpos Hle.
  assert (Hne : effective <> 0) by lia.
  destruct (ceil_div_spec total effective Hne) as [H | H]; nia.
Qed.

(** X12.  When the first response reports a positive page size and no
    more records than fit it, both of a magnitude that a float holds
    exactly, and holds a table under [events], [get_events_by] makes that
    one request and returns the response as it came: stacking the single
    table and putting it back changes nothing. *)
Theorem get_events_by_single_page
        (Scalpyr : list base_call -> base_call -> res pyval)
        (req_type : string) (ids : IdList) (per_page event_type : pyval)
        (w : world) (s : string) (d1 meta : dict) (total effective : Z)
        (df : DataFrame) :
  let first_request :=
    page_request (lookup_field_of req_type) (PStr s) per_page event_type 1 in
  join_ids ids = Ok s ->
  Scalpyr (calls w) first_request = Ok (PDict d1) ->
  dict_get d1 "meta" = Some (PDict meta) ->
  dict_get meta "total" = Some (PInt total) ->
  dict_get meta "per_page" = Some (PInt effective) ->
  0 < effective < float_exact_bound ->
  - float_exact_bound < total <= effective ->
  dict_get d1 "events" = Some (PFrame df) ->
  get_events_by Scalpyr req_type ids per_page event_type w
  = (Ok (PDict d1), mkWorld (calls w ++ [first_request]) (stdout w)).
Proof.
  intros first_request Hids Hfirst Hmeta Htotal Hper [Hpos Hbound]
         [Hlow Hle] Hevents.
  assert (Hne : effective <> 0) by lia.
  assert (Htotal_exact : Z.abs total < float_exact_bound) by lia.
  assert (Heffective_exact : Z.abs effective < float_exact_bound) by lia.
  pose proof (ceil_div_single total effective Hpos Hle) as Hone.
  assert (Hnone : Z.to_nat (ceil_div total effective - 1) = 0%nat) by lia.
  rewrite (get_events_by_run Scalpyr req_type ids per_page event_type w s
             d1 meta total effective [] [PFrame df] Hids Hfirst Hmeta Htotal
             Hper Hne Htotal_exact Heffective_exact).
  - rewrite Hnone. cbn [pages_from seq map last].
    unfold pd.concat. cbn. rewrite !app_nil_r.
    destruct (list_eq_dec string_dec (df_columns df) (df_columns df));
      cbn; destruct df as [columns index data]; cbn;
      now rewrite (dict_set_same d1 "events" _ Hevents).
  - rewrite Hnone. reflexivity.
  - cbn [map]. now rewrite Hevents.
Qed.

Lemma get_events_by_single_page_witness :
  get_events_by short_events "events" (IdStrings ["4"]) default_per_page
    PNone (mkWorld [] [])
  = (Ok (PDict [("events", PFrame (page_events 1));
                ("meta", PDict [("total", PInt 2); ("per_page", PInt 100);
                                ("page", PInt 1)])]),
     mkWorld [page_request "id" (PStr "4") (PInt 1000) PNone 1] []).
Proof.
  assert (Hpos : 0 < 100 < float_exact_bound) by (split; reflexivity).
  assert (Hle : - float_exact_bound < 2 <= 100)
    by (split; [reflexivity | discriminate]).
  exact (get_events_by_single_page short_events "events" (IdStrings ["4"])
           default_per_page PNone (mkWorld [] []) "4" _ _ 2 100
           (page_events 1) eq_refl eq_refl eq_refl eq_refl eq_refl Hpos Hle
           eq_refl).
Defined.

(** ** More on the venue resolver *)

Section ResolverSteps.

Variable Scalpyr : list base_call -> base_call -> res pyval.

(** The four ways one turn of the loop can go: the search failed and is
    noted, nothing was found, a frame was collected, or the run ends. *)
Lemma venues_loop_step (venue : string) (rest : list string)
      (all_venue_data : list pyval) (failed : list string) (w : world) :
  let w1 := mkWorld (calls w ++ [venue_search venue]) (stdout w) in
  let run := venues_loop Scalpyr (venue :: rest) all_venue_data failed w in
  ((exists response,
       Scalpyr (calls w) (venue_search venue)
       = Raise (ApiException response))
   /\ run = venues_loop Scalpyr rest all_venue_data (failed ++ [venue]) w1)
  \/ run = venues_loop Scalpyr rest all_venue_data failed w1
  \/ (exists df,
         collected_for venue df
         /\ run = venues_loop Scalpyr rest (all_venue_data ++ [PFrame df])
                    failed w1)
  \/ (exists e, run = (Raise e, w1)).
Proof.
  intros w1 run.
  assert (Hrun : run = venues_loop Scalpyr (venue :: rest) all_venue_data
                         failed w) by reflexivity.
  clearbody run. cbn [venues_loop] in Hrun.
  unfold bind at 1 in Hrun. unfold try_except, bind at 1, call, ret in Hrun.
  fold (venue_search venue) in Hrun. fold w1 in Hrun.
  destruct (Scalpyr (calls w) (venue_search venue)) as [venue_data|e].
  2:{ destruct e; try (right; right; right; eexists; exact Hrun).
      left. split; [eexists; reflexivity | exact Hrun]. }
  unfold bind at 1, lift at 1 in Hrun.
  destruct (getattr_column venue_data "id") as [ids|e];
    [|right; right; right; eexists; exact Hrun].
  destruct (0 <? List.length (s_values ids))%nat;
    [|right; left; exact Hrun].
  unfold bind at 1, lift at 1 in Hrun.
  destruct (getattr_column venue_data "num_upcoming_events") as [upcoming|e];
    [|right; right; right; eexists; exact Hrun].
  unfold bind at 1, lift at 1 in Hrun.
  destruct (gt_zero upcoming) as [mask|e];
    [|right; right; right; eexists; exact Hrun].
  destruct venue_data as [| | | | | | |df];
    try (right; right; right; eexists; exact Hrun).
  unfold bind at 1, lift at 1 in Hrun.
  destruct (getattr_column (PFrame (loc df mask)) "name") as [name|e];
    [|right; right; right; eexists; exact Hrun].
  unfold bind at 1, lift at 1 in Hrun.
  destruct (getattr_column (PFrame (loc df mask)) "id") as [id|e];
    [|right; right; right; eexists; exact Hrun].
  unfold bind at 1, lift at 1, frame_of_series in Hrun.
  destruct (list_eq_dec Z.eq_dec (s_index name) (s_index id));
    [|right; right; right; eexists; exact Hrun].
  right; right; left. eexists. split; [|exact Hrun].
  unfold collected_for, set_column. cbn. split; [reflexivity|].
  apply Forall_map. apply Forall_map. apply Forall_forall.
  intros [a b] _. cbn. eauto.
Qed.

(** Whatever the searches answer, the loop searches the names in order,
    stopping early only by raising, and prints nothing. *)
Lemma venues_loop_log (venues : list string) :
  forall (all_venue_data : list pyval) (failed : list string) (w : world),
  exists k,
    (k <= List.length venues)%nat
    /\ snd (venues_loop Scalpyr venues all_venue_data failed w)
       = mkWorld (calls w ++ map venue_search (firstn k venues)) (stdout w)
    /\ (forall r, fst (venues_loop Scalpyr venues all_venue_data failed w)
                  = Ok r -> k = List.length venues).
Proof.
  induction venues as [|venue rest IH]; intros all_venue_data failed w.
  - exists 0%nat. cbn. rewrite app_nil_r. destruct w. auto.
  - assert (Hnext : forall acc failed',
               venues_loop Scalpyr (venue :: rest) all_venue_data failed w
               = venues_loop Scalpyr rest acc failed'
                   (mkWorld (calls w ++ [venue_search venue]) (stdout w)) ->
               exists k,
                 (k <= List.length (venue :: rest))%nat
                 /\ snd (venues_loop Scalpyr (venue :: rest) all_venue_data
                           failed w)
                    = mkWorld (calls w
                                 ++ map venue_search
                                      (firstn k (venue :: rest)))
                        (stdout w)
                 /\ (forall r,
                        fst (venues_loop Scalpyr (venue :: rest)
                               all_venue_data failed w) = Ok r ->
                        k = List.length (venue :: rest))).
    { intros acc failed' Hrun. rewrite Hrun.
      destruct (IH acc failed'
                  (mkWorld (calls w ++ [venue_search venue]) (stdout w)))
        as (k & Hk & Hlog & Hall).
      exists (S k). cbn [List.length firstn map calls stdout] in *.
      split; [lia|]. split.
      - rewrite Hlog. now rewrite <- app_assoc.
      - intros r Hr. f_equal. now apply (Hall r). }
    destruct (venues_loop_step venue rest all_venue_data failed w)
      as [[_ Hrun] | [Hrun | [[df [_ Hrun]] | [e Hrun]]]].
    + exact (Hnext _ _ Hrun).
    + exact (Hnext _ _ Hrun).
    + exact (Hnext _ _ Hrun).
    + exists 1%nat. rewrite Hrun. cbn. split; [lia|].
      split; [reflexivity | discriminate].
Qed.

(** What the loop has collected when it ends without raising: frames of
    three columns, each row ending in one of the names given. *)
Lemma venues_loop_collects (venues : list string) :
  forall (all_venue_data : list pyval) (failed : list string) (w : world)
         (acc : list pyval) (failed' : list string),
    fst (venues_loop Scalpyr venues all_venue_data failed w)
    = Ok (acc, failed') ->
    exists new,
      acc = all_venue_data ++ map PFrame new
      /\ Forall (fun df => exists venue, In venue venues
                                         /\ collected_for venue df) new.
Proof.
  induction venues as [|venue rest IH];
    intros all_venue_data failed w acc failed' Hrun.
  - cbn in Hrun. inversion Hrun. exists []. cbn. now rewrite app_nil_r.
  - assert (Hweaken : forall new,
               Forall (fun df => exists v, In v rest /\ collected_for v df)
                 new ->
               Forall (fun df => exists v, In v (venue :: rest)
                                           /\ collected_for v df) new).
    { intros new. apply Forall_impl. intros df [v [Hv Hc]].
      exists v. split; [now right | exact Hc]. }
    destruct (venues_loop_step venue rest all_venue_data failed w)
      as [[_ Hstep] | [Hstep | [[df [Hdf Hstep]] | [e Hstep]]]];
      rewrite Hstep in Hrun.
    + destruct (IH _ _ _ _ _ Hrun) as (new & Hacc & Hnew).
      exists new. auto.
    + destruct (IH _ _ _ _ _ Hrun) as (new & Hacc & Hnew).
      exists new. auto.
    + destruct (IH _ _ _ _ _ Hrun) as (new & Hacc & Hnew).
      exists (df :: new). split.
      * rewrite Hacc. cbn [map]. now rewrite <- app_assoc.
      * constructor; [|auto]. exists venue. split; [now left | exact Hdf].
    + discriminate Hrun.
Qed.

End ResolverSteps.

(** X13.  Whatever the searches answer, [get_venue_ids] makes no request
    but a search by name for each of the first so many names given, in
    their order, and calls [print] at most once; when it returns, it has
    searched every name. *)
Theorem get_venue_ids_searches_in_order
        (Scalpyr : list base_call -> base_call -> res pyval)
        (venues : list string) (w : world) :
  exists k,
    (k <= List.length venues)%nat
    /\ calls (snd (get_venue_ids Scalpyr venues w))
       = calls w ++ map venue_search (firstn k venues)
    /\ (stdout (snd (get_venue_ids Scalpyr venues w)) = stdout w
        \/ exists printed,
            stdout (snd (get_venue_ids Scalpyr venues w))
            = stdout w ++ [printed])
    /\ (forall out, fst (get_venue_ids Scalpyr venues w) = Ok out ->
                    k = List.length venues).
Proof.
  destruct (venues_loop_log Scalpyr venues [] [] w) as (k & Hk & Hlog & Hall).
  exists k. split; [exact Hk|].
  remember (get_venue_ids Scalpyr venues w) as run eqn:Hrun.
  unfold get_venue_ids in Hrun. unfold bind at 1 in Hrun.
  destruct (venues_loop Scalpyr venues [] [] w) as [[r|e] w'] eqn:Hloop;
    cbn [fst snd] in Hlog, Hall; subst w'.
  2:{ subst run. cbn. split; [reflexivity|].
      split; [now left | discriminate]. }
  assert (Hk' : k = List.length venues) by (now apply (Hall r)).
  destruct (0 <? List.length (snd r))%nat;
    unfold bind, print, lift, ret in Hrun; cbn [calls stdout] in Hrun;
    destruct (pd.concat (fst r) true); subst run; cbn;
    (split; [reflexivity|]);
    (split; [first [now left | right; eexists; reflexivity] | auto]).
Qed.

(** X14.  Whatever the searches answer, a result of [get_venue_ids] is a
    table with the columns [venue], [venue_id], [searched_venue], rows
    labelled from 0 on, whose every row ends in one of the names that were
    given. *)
Theorem get_venue_ids_returns_three_columns
        (Scalpyr : list base_call -> base_call -> res pyval)
        (venues : list string) (w : world) (out : pyval) :
  fst (get_venue_ids Scalpyr venues w) = Ok out ->
  exists rows,
    out = PFrame (mkFrame venue_id_columns (range (List.length rows)) rows)
    /\ Forall (fun row => exists name id venue,
                   row = [name; id; PStr venue] /\ In venue venues) rows.
Proof.
  unfold get_venue_ids. unfold bind at 1.
  destruct (venues_loop Scalpyr venues [] [] w) as [[[acc failed]|e] w']
    eqn:Hloop; [|discriminate].
  destruct (venues_loop_collects Scalpyr venues [] [] w acc failed)
    as (new & Hacc & Hnew).
  { now rewrite Hloop. }
  cbn [app] in Hacc. subst acc. cbn [fst snd].
  assert (Hprint : forall w0,
             exists w1,
               (if (0 <? List.length failed)%nat
                then print ("Could not find venues: " ++ newline
                              ++ join newline failed)%string
                else ret tt) w0 = (Ok tt, w1)).
  { intros w0. destruct (0 <? List.length failed)%nat; eexists; reflexivity. }
  destruct (Hprint w') as [w1 Hw1]. unfold bind at 1. rewrite Hw1.
  unfold bind, lift, ret. cbn [fst snd].
  destruct new as [|df dfs]; [discriminate|].
  assert (Hcols : Forall (fun df' => df_columns df' = venue_id_columns)
                    (df :: dfs)).
  { eapply Forall_impl; [|exact Hnew]. intros df' [v [_ [Hc _]]]. exact Hc. }
  assert (Hcat : pd.concat (map PFrame (df :: dfs)) true
                 = Ok (mkFrame venue_id_columns
                         (range (List.length (flat_map df_data (df :: dfs))))
                         (flat_map df_data (df :: dfs))))
    by exact (concat_same_columns venue_id_columns df dfs true Hcols).
  rewrite Hcat.
  cbn [fst]. intros H. injection H as <-.
  exists (flat_map df_data (df :: dfs)). split; [reflexivity|].
  apply Forall_flat_map. eapply Forall_impl; [|exact Hnew].
  intros df' [v [Hv [_ Hrows]]]. eapply Forall_impl; [|exact Hrows].
  intros row [name [id Hrow]]. eauto.
Qed.

Lemma get_venue_ids_returns_three_columns_witness :
  exists rows,
    fst (get_venue_ids garden_search ["Madison Square Garden"]
           (mkWorld [] []))
    = Ok (PFrame (mkFrame venue_id_columns (range (List.length rows)) rows))
    /\ List.length rows = 1%nat.
Proof.
  destruct (get_venue_ids_returns_three_columns garden_search
              ["Madison Square Garden"] (mkWorld [] []) _ eq_refl)
    as (rows & Hout & _).
  exists rows. inversion Hout. split; reflexivity.
Defined.

Section ResolverRuns.

Variable Scalpyr : list base_call -> base_call -> res pyval.

(** The loop over names whose searches can all be gone on from, followed by
    further names. *)
Lemma venues_loop_app (pre : list string) :
  forall (rest : list string) (all_venue_data : list pyval)
         (failed : list string) (w : world),
    Forall (fun found => digestible (snd found))
      (searches Scalpyr (calls w) pre) ->
    venues_loop Scalpyr (pre ++ rest) all_venue_data failed w
    = venues_loop Scalpyr rest
        (all_venue_data
           ++ map PFrame
                (flat_map contribution_of (searches Scalpyr (calls w) pre)))
        (failed ++ flat_map failed_of (searches Scalpyr (calls w) pre))
        (mkWorld (calls w ++ map venue_search pre) (stdout w)).
Proof.
  induction pre as [|venue pre IH]; intros rest all_venue_data failed w Hall.
  - cbn. rewrite !app_nil_r. now destruct w.
  - cbn [searches app] in *. inversion Hall as [|? ? Hhead Htail]; subst.
    cbn [snd] in Hhead.
    destruct Hhead as [[response Hr] | [df [Hr Hdf]]].
    + rewrite (venues_loop_failed Scalpyr _ _ _ _ _ _ Hr).
      rewrite IH by exact Htail.
      cbn [calls stdout flat_map map]. rewrite Hr.
      unfold contribution_of at 2, failed_of at 2. cbn [fst snd app].
      rewrite <- !app_assoc. reflexivity.
    + rewrite (venues_loop_found Scalpyr _ _ _ _ _ _ Hr Hdf).
      rewrite IH by exact Htail.
      cbn [calls stdout flat_map map]. rewrite Hr.
      unfold contribution_of at 2, failed_of at 2. cbn [fst snd app].
      rewrite map_app. rewrite <- !app_assoc. reflexivity.
Qed.

(** The loop over names whose searches all answer with a table without
    rows: nothing is collected and nothing noted. *)
Lemma venues_loop_nothing_found (venues : list string) :
  forall (all_venue_data : list pyval) (failed : list string) (w : world),
    Forall (fun found =>
              exists df, snd found = Ok (PFrame df)
                         /\ filter (String.eqb "id") (df_columns df) = ["id"]
                         /\ df_data df = [])
      (searches Scalpyr (calls w) venues) ->
    venues_loop Scalpyr venues all_venue_data failed w
    = (Ok (all_venue_data, failed),
       mkWorld (calls w ++ map venue_search venues) (stdout w)).
Proof.
  induction venues as [|venue rest IH]; intros all_venue_data failed w Hall.
  - cbn. rewrite app_nil_r. now destruct w.
  - cbn [searches] in Hall. inversion Hall as [|? ? Hhead Htail]; subst.
    destruct Hhead as (df & Hr & Hid & Hdata). cbn [snd] in Hr.
    cbn [venues_loop].
    unfold bind at 1. unfold try_except, bind at 1, call, ret.
    fold (venue_search venue). rewrite Hr.
    run_lift. rewrite (getattr_column_unique df "id" Hid).
    cbn [s_values]. rewrite Hdata. cbn [map List.length Nat.ltb Nat.leb].
    rewrite IH by exact Htail.
    cbn [calls stdout map]. now rewrite <- app_assoc.
Qed.

End ResolverRuns.

(** X15.  An exception of a search that is not [ApiException] ends
    [get_venue_ids] at that name: the names after it are not searched, and
    the names that failed before it are not printed. *)
Theorem get_venue_ids_aborts_on_other_exception
        (Scalpyr : list base_call -> base_call -> res pyval)
        (before : list string) (venue : string) (after : list string)
        (w : world) (e : exn) :
  Forall (fun search => digestible (snd search))
    (searches Scalpyr (calls w) before) ->
  Scalpyr (calls w ++ map venue_search before) (venue_search venue)
  = Raise e ->
  not_api_exception e ->
  get_venue_ids Scalpyr (before ++ venue :: after) w
  = (Raise e,
     mkWorld (calls w ++ map venue_search (before ++ [venue])) (stdout w)).
Proof.
  intros Hbefore Hraise Hother. unfold get_venue_ids. unfold bind at 1.
  rewrite (venues_loop_app Scalpyr before _ _ _ w Hbefore).
  cbn [venues_loop].
  unfold bind at 1. unfold try_except, bind at 1, call, ret.
  cbn [calls stdout]. fold (venue_search venue). rewrite Hraise.
  rewrite map_app, app_assoc. cbn [map].
  destruct e; try reflexivity. contradiction.
Qed.

Lemma get_venue_ids_aborts_on_other_exception_witness :
  get_venue_ids moody_search ["Nowhere Hall"; "Madison Square Garden"; "Arena"]
    (mkWorld [] [])
  = (Raise (OtherException "URLError"),
     mkWorld [venue_search "Nowhere Hall";
              venue_search "Madison Square Garden"] []).
Proof.
  refine (get_venue_ids_aborts_on_other_exception moody_search
            ["Nowhere Hall"] "Madison Square Garden" ["Arena"]
            (mkWorld [] []) (OtherException "URLError") _ eq_refl I).
  apply Forall_cons; [|apply Forall_nil]. left. eexists. reflexivity.
Defined.

(** X16.  When every search answers with a table that has an [id] column
    and no rows, nothing is collected: [get_venue_ids] searches every name,
    prints nothing, as none of the searches raised, and ends in the
    [ValueError] of stacking nothing. *)
Theorem get_venue_ids_nothing_found
        (Scalpyr : list base_call -> base_call -> res pyval)
        (venues : list string) (w : world) :
  Forall (fun search =>
            exists df, snd search = Ok (PFrame df)
                       /\ filter (String.eqb "id") (df_columns df) = ["id"]
                       /\ df_data df = [])
    (searches Scalpyr (calls w) venues) ->
  get_venue_ids Scalpyr venues w
  = (Raise ValueError,
     mkWorld (calls w ++ map venue_search venues) (stdout w)).
Proof.
  intros Hall. unfold get_venue_ids. unfold bind at 1.
  now rewrite (venues_loop_nothing_found Scalpyr venues [] [] w Hall).
Qed.

Lemma get_venue_ids_nothing_found_witness :
  get_venue_ids blank_search ["Old Hall"; "New Hall"] (mkWorld [] [])
  = (Raise ValueError,
     mkWorld [venue_search "Old Hall"; venue_search "New Hall"] []).
Proof.
  refine (get_venue_ids_nothing_found blank_search ["Old Hall"; "New Hall"]
            (mkWorld [] []) _).
  repeat apply Forall_cons; try apply Forall_nil;
    eexists; repeat split; reflexivity.
Defined.
